(** * Unit converter: the conversion table and the conversion engine

    A shallow embedding of [unit_converter.py]: the module-level dictionary
    [CONVERSIONS], the function [convert_temperature], the body of the
    "Convert" handler (called [convert] here, after the specification) and
    the two key listings that feed the select boxes ([categories], [units]).

    Python numbers are modelled by a small interface [Number] with two
    instances: binary64 (what CPython's [float] is) and the rationals (the
    exact arithmetic in which the algebraic laws of the specification are
    phrased).  The program text is written once, over the interface. *)

From Stdlib Require Import Ascii DecimalString Lqa Qabs Qpower.
From Stdlib Require Import ZArith QArith Qfield String List Floats Bool Lia.
Import ListNotations.

Set Warnings "-inexact-float".
Set Implicit Arguments.

(** ** Python values, exceptions and dictionaries *)

(** The literals that occur as values of the inner dictionaries. *)
Inductive pyval : Type :=
| PyInt (z : Z)
| PyFloat (x : float)
| PyStr (s : string).

(** The exceptions the modelled expressions can raise. *)
Inductive error : Type :=
| KeyError (key : string)
| TypeError
| ZeroDivisionError.

Definition res (A : Type) : Type := (error + A)%type.

(** A dictionary keeps its insertion order; [d[k]] finds the entry of [k]. *)
Definition dict (V : Type) : Type := list (string * V).

Fixpoint getitem {V : Type} (d : dict V) (k : string) : res V :=
  match d with
  | [] => inl (KeyError k)
  | (k', v) :: d' => if String.eqb k k' then inr v else getitem d' k
  end.

Definition keys {V : Type} (d : dict V) : list string := map fst d.

Definition table : Type := dict (dict pyval).

(** ** The numeric interface

    [value] is a Python [float] (the number input is created with
    [value=1.0]); the factors of the table are [int] or [float] literals
    and take part in [*] and [/] after conversion to the type of [value]. *)

Class Number (T : Type) : Type := {
  of_int : Z -> T;
  of_float : float -> T;
  add : T -> T -> T;
  sub : T -> T -> T;
  mul : T -> T -> T;
  quot : T -> T -> T;
  is_zero : T -> bool
}.

(** [int -> float] as CPython does it, for the magnitudes below [2^63]; the
    integers of the table and of the temperature rules are below [2^53], so
    the conversion is exact on them ([int_literals_exact]). *)
Definition Z2float (z : Z) : float :=
  match z with
  | Z0 => PrimFloat.of_uint63 (Uint63.of_Z 0)
  | Zpos _ => PrimFloat.of_uint63 (Uint63.of_Z z)
  | Zneg p => PrimFloat.opp (PrimFloat.of_uint63 (Uint63.of_Z (Zpos p)))
  end.

#[export] Instance float_Number : Number float := {
  of_int := Z2float;
  of_float := fun x => x;
  add := PrimFloat.add;
  sub := PrimFloat.sub;
  mul := PrimFloat.mul;
  quot := PrimFloat.div;
  is_zero := fun x => PrimFloat.eqb x 0%float
}.

(** The rational number a binary64 value stands for.  In the rational
    instance a float literal of the table denotes the value of its binary64
    reading, which is nonzero whenever the literal is. *)
Definition SF2Q (x : spec_float) : Q :=
  match x with
  | S754_finite s m e =>
      (inject_Z (if s then Zneg m else Zpos m) * Qpower (2 # 1) e)%Q
  | _ => 0%Q
  end.

Definition float2Q (x : float) : Q := SF2Q (Prim2SF x).

#[export] Instance Q_Number : Number Q := {
  of_int := inject_Z;
  of_float := float2Q;
  add := Qplus;
  sub := Qminus;
  mul := Qmult;
  quot := Qdiv;
  is_zero := fun x => Qeq_bool x 0%Q
}.

(** ** The conversion table *)

Definition CONVERSIONS : table :=
  [ ("Length",
      [ ("Meters", PyInt 1);
        ("Kilometers", PyInt 1000);
        ("Centimeters", PyFloat 0.01);
        ("Millimeters", PyFloat 0.001);
        ("Miles", PyFloat 1609.34);
        ("Yards", PyFloat 0.9144);
        ("Feet", PyFloat 0.3048);
        ("Inches", PyFloat 0.0254);
        ("Nautical Miles", PyInt 1852) ]);
    ("Weight/Mass",
      [ ("Kilograms", PyInt 1);
        ("Grams", PyFloat 0.001);
        ("Milligrams", PyFloat 0.000001);
        ("Metric Tons", PyInt 1000);
        ("Pounds", PyFloat 0.453592);
        ("Ounces", PyFloat 0.0283495);
        ("Stone", PyFloat 6.35029) ]);
    ("Temperature",
      [ ("Celsius", PyStr "C");
        ("Fahrenheit", PyStr "F");
        ("Kelvin", PyStr "K") ]);
    ("Area",
      [ ("Square Meters", PyInt 1);
        ("Square Kilometers", PyInt 1000000);
        ("Square Miles", PyFloat 2589988.11);
        ("Square Yards", PyFloat 0.836127);
        ("Square Feet", PyFloat 0.092903);
        ("Acres", PyFloat 4046.86);
        ("Hectares", PyInt 10000) ]);
    ("Volume",
      [ ("Cubic Meters", PyInt 1);
        ("Liters", PyFloat 0.001);
        ("Milliliters", PyFloat 0.000001);
        ("Cubic Feet", PyFloat 0.0283168);
        ("Cubic Inches", PyFloat 0.0000163871);
        ("Gallons (US)", PyFloat 0.00378541);
        ("Quarts (US)", PyFloat 0.000946353);
        ("Pints (US)", PyFloat 0.000473176);
        ("Fluid Ounces (US)", PyFloat 0.0000295735) ]);
    ("Speed",
      [ ("Meters per Second", PyInt 1);
        ("Kilometers per Hour", PyFloat 0.277778);
        ("Miles per Hour", PyFloat 0.44704);
        ("Knots", PyFloat 0.514444);
        ("Feet per Second", PyFloat 0.3048) ]);
    ("Time",
      [ ("Seconds", PyInt 1);
        ("Minutes", PyInt 60);
        ("Hours", PyInt 3600);
        ("Days", PyInt 86400);
        ("Weeks", PyInt 604800);
        ("Months", PyInt 2592000);
        ("Years", PyInt 31536000) ]);
    ("Digital Storage",
      [ ("Bytes", PyInt 1);
        ("Kilobytes", PyInt 1024);
        ("Megabytes", PyInt 1048576);
        ("Gigabytes", PyInt 1073741824);
        ("Terabytes", PyInt 1099511627776) ]);
    ("Energy",
      [ ("Joules", PyInt 1);
        ("Kilojoules", PyInt 1000);
        ("Calories", PyFloat 4.184);
        ("Kilocalories", PyInt 4184);
        ("Watt-hours", PyInt 3600);
        ("Kilowatt-hours", PyInt 3600000);
        ("Electron-volts", PyFloat 1.602177e-19) ]);
    ("Pressure",
      [ ("Pascal", PyInt 1);
        ("Kilopascal", PyInt 1000);
        ("Bar", PyInt 100000);
        ("PSI", PyFloat 6894.76);
        ("Atmosphere", PyInt 101325);
        ("Millimeter of Mercury", PyFloat 133.322) ])
  ]%string.

(** ** The monad of the engine: exceptions over the module's global *)

Definition M (A : Type) : Type := table -> res A * table.

Definition ret {A : Type} (a : A) : M A := fun s => (inr a, s).

Definition bind {A B : Type} (m : M A) (f : A -> M B) : M B :=
  fun s =>
    match m s with
    | (inl e, s') => (inl e, s')
    | (inr a, s') => f a s'
    end.

Definition lift {A : Type} (r : res A) : M A := fun s => (r, s).

(** [CONVERSIONS[k]]: a read of the global followed by a subscript. *)
Definition global_getitem (k : string) : M (dict pyval) :=
  fun s => (getitem s k, s).

Definition global_keys : M (list string) := fun s => (inr (keys s), s).

Declare Scope py_scope.
Delimit Scope py_scope with py.
Notation "x <- m ;; k" := (bind m (fun x => k))
  (at level 61, m at next level, right associativity) : py_scope.

Definition rbind {A B : Type} (r : res A) (f : A -> res B) : res B :=
  match r with
  | inl e => inl e
  | inr a => f a
  end.

Notation "x <~ r ;; k" := (rbind r (fun x => k))
  (at level 61, r at next level, right associativity) : py_scope.

(** The value and the final state of a run. *)
Definition eval {A : Type} (m : M A) (s : table) : res A := fst (m s).
Definition exec {A : Type} (m : M A) (s : table) : table := snd (m s).

(** ** The engine, over any [Number] *)

Section Engine.
Context {T : Type} `{Number T}.

(** The operand of [*] or [/] coming from the table: a [str] there is a
    [TypeError]. *)
Definition to_number (x : pyval) : res T :=
  match x with
  | PyInt z => inr (of_int z)
  | PyFloat f => inr (of_float f)
  | PyStr _ => inl TypeError
  end.

(** [x / y] raises on a zero divisor. *)
Definition truediv (x y : T) : res T :=
  if is_zero y then inl ZeroDivisionError else inr (quot x y).

(** [convert_temperature] of the source, lines 138-153: both chains end in
    a catch-all branch, so a unit name other than Fahrenheit and Kelvin is
    read as Celsius. *)
Definition convert_temperature (value : T) (from_unit to_unit : string)
  : res T :=
  (celsius <~
     (if String.eqb from_unit "Fahrenheit" then
        truediv (mul (sub value (of_int 32)) (of_int 5)) (of_int 9)
      else if String.eqb from_unit "Kelvin" then
        inr (sub value (of_float 273.15))
      else
        inr value) ;;
   if String.eqb to_unit "Fahrenheit" then
     (q <~ truediv (mul celsius (of_int 9)) (of_int 5) ;;
      inr (add q (of_int 32)))
   else if String.eqb to_unit "Kelvin" then
     inr (add celsius (of_float 273.15))
   else
     inr celsius)%py.

(** The computation of [result] in the "Convert" handler, lines 187-191,
    as a function of the four values the page collects.  The operands are
    evaluated from left to right: the first subscripts, the product, the
    second subscripts, the quotient. *)
Definition convert (category from_unit to_unit : string) (value : T) : M T :=
  if String.eqb category "Temperature" then
    lift (convert_temperature value from_unit to_unit)
  else
    (d1 <- global_getitem category ;;
     x <- lift (getitem d1 from_unit) ;;
     fx <- lift (to_number x) ;;
     let p := mul value fx in
     d2 <- global_getitem category ;;
     y <- lift (getitem d2 to_unit) ;;
     fy <- lift (to_number y) ;;
     lift (truediv p fy))%py.

(** [list(CONVERSIONS.keys())] and [list(CONVERSIONS[category].keys())]. *)
Definition categories : M (list string) := global_keys.

Definition units (category : string) : M (list string) :=
  (d <- global_getitem category ;; ret (keys d))%py.

End Engine.

(** ** Vocabulary of the properties *)

Definition is_category (c : string) : Prop := In c (keys CONVERSIONS).

(** Every category but Temperature is linear. *)
Definition linear (c : string) : Prop :=
  is_category c /\ c <> "Temperature"%string.

Definition unit_of (c u : string) : Prop :=
  exists d, getitem CONVERSIONS c = inr d /\ In u (keys d).

(** The scale factor stored for a unit, read as a number. *)
Definition factor {T : Type} `{Number T} (c u : string) : option T :=
  match (d <~ getitem CONVERSIONS c ;; x <~ getitem d u ;; to_number x)%py with
  | inr f => Some f
  | inl _ => None
  end.

(** The temperature rules in the words of the specification. *)
Inductive temp_unit : Type := Celsius | Fahrenheit | Kelvin.

Definition temp_name (t : temp_unit) : string :=
  match t with
  | Celsius => "Celsius"
  | Fahrenheit => "Fahrenheit"
  | Kelvin => "Kelvin"
  end.

Section TemperatureSpec.
Context {T : Type} `{Number T}.

Definition spec_to_celsius (from_unit : temp_unit) (value : T) : T :=
  match from_unit with
  | Fahrenheit => quot (mul (sub value (of_int 32)) (of_int 5)) (of_int 9)
  | Kelvin => sub value (of_float 273.15)
  | Celsius => value
  end.

Definition spec_from_celsius (to_unit : temp_unit) (celsius : T) : T :=
  match to_unit with
  | Fahrenheit => add (quot (mul celsius (of_int 9)) (of_int 5)) (of_int 32)
  | Kelvin => add celsius (of_float 273.15)
  | Celsius => celsius
  end.
End TemperatureSpec.

(** The operations of the module, as data, to speak about histories. *)
Inductive op (T : Type) : Type :=
| OpConvert (category from_unit to_unit : string) (value : T)
| OpCategories
| OpUnits (category : string).

Arguments OpCategories {T}.
Arguments OpUnits {T} category.

Definition exec_op {T : Type} `{Number T} (o : op T) (s : table) : table :=
  match o with
  | OpConvert c a b v => exec (convert c a b v) s
  | OpCategories => exec categories s
  | OpUnits c => exec (units c) s
  end.

Definition exec_ops {T : Type} `{Number T} (h : list (op T)) (s : table)
  : table :=
  fold_left (fun s' o => exec_op o s') h s.

(** The categories and unit counts announced in the page's own text
    (the "About this Converter" expander). *)
Definition documented : list (string * nat) :=
  [ ("Length", 9%nat); ("Weight/Mass", 7%nat); ("Temperature", 3%nat);
    ("Area", 7%nat); ("Volume", 9%nat); ("Speed", 5%nat); ("Time", 7%nat);
    ("Digital Storage", 5%nat); ("Energy", 7%nat); ("Pressure", 6%nat)
  ]%string.

(** The unit of binary64 multiplication, as the specification of the
    primitive floats sees it. *)
Definition SF_one : spec_float := S754_finite false 4503599627370496 (-52).

(** Table checks, as boolean functions. *)
Definition nonzero_number {T : Type} `{Number T} (x : pyval) : bool :=
  match to_number x with
  | inr f => negb (is_zero f)
  | inl _ => false
  end.

Definition linear_entries_ok (p : pyval -> bool) (s : table) : bool :=
  forallb (fun cd => String.eqb (fst cd) "Temperature"
                     || forallb (fun ux => p (snd ux)) (snd cd)) s.

Definition positive_float (x : pyval) : bool :=
  match to_number x with
  | inr f => PrimFloat.ltb 0%float f
  | inl _ => false
  end.

(** The integer literals are converted to binary64 without rounding. *)
Definition small_int (x : pyval) : bool :=
  match x with
  | PyInt z => (0 <=? z)%Z && (z <? 2 ^ 53)%Z
  | _ => true
  end.

Fixpoint nodup_keys (l : list string) : bool :=
  match l with
  | [] => true
  | k :: l' => negb (existsb (String.eqb k) l') && nodup_keys l'
  end.

(** ** The page around the engine

    The script fills three select boxes from the table and hands their
    values to the handler (lines 167-183).  A select box returns one of the
    options it was given, so the handler only ever sees a category taken
    from [list(CONVERSIONS.keys())] and two units taken from
    [list(CONVERSIONS[category].keys())]. *)
Definition page_inputs (s : table) (category from_unit to_unit : string)
  : Prop :=
  exists cs us,
    eval categories s = inr cs /\ In category cs
    /\ eval (units category) s = inr us
    /\ In from_unit us /\ In to_unit us.

(** No unit name of one entry of the table occurs in another entry. *)
Definition units_disjoint (s : table) : bool :=
  forallb
    (fun cd =>
       forallb
         (fun cd' =>
            String.eqb (fst cd) (fst cd')
            || forallb (fun u => negb (existsb (String.eqb u) (keys (snd cd'))))
                       (keys (snd cd)))
         s)
    s.

(** The first unit of every linear entry is an [int] or [float] equal to 1. *)
Definition first_unit_one (s : table) : bool :=
  forallb
    (fun cd =>
       String.eqb (fst cd) "Temperature"
       || match snd cd with
          | (_, x) :: _ =>
              match to_number (T:=float) x with
              | inr f => PrimFloat.Leibniz.eqb f 1%float
              | inl _ => false
              end
          | [] => false
          end)
    s.

(** Sign checks on the factors, in each of the two readings. *)
Definition positive_Q (x : pyval) : bool :=
  match to_number (T:=Q) x with
  | inr q => negb (Qle_bool q 0)
  | inl _ => false
  end.

Definition finite_positive (x : pyval) : bool :=
  match to_number (T:=float) x with
  | inr f =>
      match Prim2SF f with
      | S754_finite false _ _ => true
      | _ => false
      end
  | inl _ => false
  end.

(** ** What the page shows

    The handler reports [f"{value:,.4f} {from_unit} = {result:,.4f} {to_unit}"]
    (line 194).  The format [,.4f] writes a binary64 value in fixed point
    with four decimals, correctly rounded from the exact value (ties to
    even), with a comma between groups of three integer digits; the sign
    is the sign bit, and the non-finite values are spelled out. *)

(** Nearest integer, ties to even. *)
Definition round_half_even (q : Q) : Z :=
  let n := Qnum q in
  let d := Zpos (Qden q) in
  let f := (n / d)%Z in
  match (2 * (n mod d) ?= d)%Z with
  | Lt => f
  | Gt => (f + 1)%Z
  | Eq => if Z.even f then f else (f + 1)%Z
  end.

(** Commas every three digits, on the digits from the right. *)
Fixpoint group3_rev (l : list ascii) (k : nat) : list ascii :=
  match l with
  | [] => []
  | c :: l' =>
      match k with
      | O => ","%char :: c :: group3_rev l' 2
      | S k' => c :: group3_rev l' k'
      end
  end.

Definition decimal_digits (n : Z) : list ascii :=
  list_ascii_of_string (NilZero.string_of_uint (N.to_uint (Z.to_N n))).

Definition digit_char (n : Z) : ascii :=
  ascii_of_nat (48 + Z.to_nat (n mod 10)).

(** The text of [n / 10^4] with four decimals, [n] a natural number. *)
Definition fixed4 (neg : bool) (n : Z) : string :=
  let i := (n / 10000)%Z in
  let f := (n mod 10000)%Z in
  ((if neg then "-" else "")
   ++ string_of_list_ascii (rev (group3_rev (rev (decimal_digits i)) 3))
   ++ "."
   ++ string_of_list_ascii
        [digit_char (f / 1000); digit_char (f / 100); digit_char (f / 10);
         digit_char f])%string.

(** Sign bit and magnitude of a finite binary64 value. *)
Definition finite_value (x : float) : option (bool * Q) :=
  match Prim2SF x with
  | S754_zero s => Some (s, 0%Q)
  | S754_finite s m e => Some (s, SF2Q (S754_finite false m e))
  | _ => None
  end.

Definition format_4f (x : float) : string :=
  match finite_value x with
  | Some (s, q) => fixed4 s (round_half_even (q * inject_Z 10000))
  | None =>
      match Prim2SF x with
      | S754_infinity true => "-inf"
      | S754_infinity false => "inf"
      | _ => "nan"
      end
  end.

(** * Lemmas *)

(** ** Dictionaries *)

Lemma getitem_In {V : Type} (d : dict V) (k : string) (v : V) :
  getitem d k = inr v -> In (k, v) d.
Proof.
  induction d as [|[k' v'] d IH]; simpl; [discriminate|].
  destruct (String.eqb_spec k k') as [->|Hne].
  - intros [= ->]. now left.
  - intros Hd. right. now apply IH.
Qed.

Lemma getitem_key {V : Type} (d : dict V) (k : string) (v : V) :
  getitem d k = inr v -> In k (keys d).
Proof.
  intros Hg. apply getitem_In in Hg.
  unfold keys. now apply (in_map fst) in Hg.
Qed.

Lemma key_getitem {V : Type} (d : dict V) (k : string) :
  In k (keys d) -> exists v, getitem d k = inr v.
Proof.
  induction d as [|[k' v'] d IH]; simpl; [tauto|].
  intros [Hk|Hk]; destruct (String.eqb_spec k k') as [->|Hne]; eauto.
  congruence.
Qed.

Lemma getitem_missing {V : Type} (d : dict V) (k : string) :
  ~ In k (keys d) -> getitem d k = inl (KeyError k).
Proof.
  induction d as [|[k' v'] d IH]; simpl; [reflexivity|].
  intros Hk. destruct (String.eqb_spec k k') as [->|Hne].
  - exfalso. apply Hk. now left.
  - apply IH. tauto.
Qed.

Lemma getitem_error {V : Type} (d : dict V) (k : string) (e : error) :
  getitem d k = inl e -> e = KeyError k /\ ~ In k (keys d).
Proof.
  induction d as [|[k' v'] d IH]; simpl.
  - intros [= <-]. tauto.
  - destruct (String.eqb_spec k k') as [->|Hne]; [discriminate|].
    intros Hg. destruct (IH Hg) as [-> Hn]. split; [reflexivity|].
    intros [Hk|Hk]; [congruence|tauto].
Qed.

Lemma linear_entries_ok_spec (p : pyval -> bool) (s : table)
      (c u : string) (d : dict pyval) (x : pyval) :
  linear_entries_ok p s = true ->
  String.eqb c "Temperature" = false ->
  getitem s c = inr d -> getitem d u = inr x -> p x = true.
Proof.
  unfold linear_entries_ok. rewrite forallb_forall.
  intros Hall Hc Hd Hx.
  apply getitem_In in Hd. apply getitem_In in Hx.
  specialize (Hall _ Hd). simpl in Hall. rewrite Hc in Hall. simpl in Hall.
  rewrite forallb_forall in Hall. exact (Hall _ Hx).
Qed.

(** ** The engine never writes the global *)

Section EngineFacts.
Context {T : Type} `{Number T}.

Lemma convert_state (c a b : string) (v : T) (s : table) :
  exec (convert c a b v) s = s.
Proof.
  unfold exec, convert, bind, lift, global_getitem.
  destruct (String.eqb c "Temperature"); [reflexivity|].
  destruct (getitem s c) as [e|d]; [reflexivity|].
  destruct (getitem d a) as [e|x]; [reflexivity|].
  destruct (to_number x) as [e|fx]; [reflexivity|].
  destruct (getitem d b) as [e|y]; [reflexivity|].
  destruct (to_number y) as [e|fy]; reflexivity.
Qed.

Lemma units_state (c : string) (s : table) : exec (units c) s = s.
Proof.
  unfold exec, units, bind, global_getitem, ret.
  destruct (getitem s c); reflexivity.
Qed.

Lemma exec_op_state (o : op T) (s : table) : exec_op o s = s.
Proof.
  destruct o; simpl.
  - apply convert_state.
  - reflexivity.
  - apply units_state.
Qed.

Lemma exec_ops_state (h : list (op T)) (s : table) : exec_ops h s = s.
Proof.
  revert s. induction h as [|o h IH]; intros s; [reflexivity|].
  unfold exec_ops in *. simpl. rewrite exec_op_state. apply IH.
Qed.

(** The linear branch, once both factors are known. *)
Lemma convert_linear_eval (s : table) (c a b : string) (v : T)
      (d : dict pyval) (xa xb : pyval) (fa fb : T) :
  String.eqb c "Temperature" = false ->
  getitem s c = inr d ->
  getitem d a = inr xa -> to_number xa = inr fa ->
  getitem d b = inr xb -> to_number xb = inr fb ->
  is_zero fb = false ->
  eval (convert c a b v) s = inr (quot (mul v fa) fb).
Proof.
  intros Hc Hd Ha Hfa Hb Hfb Hz.
  unfold eval, convert, bind, lift, global_getitem, truediv.
  now rewrite Hc, Hd, Ha, Hfa, Hb, Hfb, Hz.
Qed.

(** The temperature branch follows the two steps of the specification. *)
Lemma convert_temperature_two_step (f t : temp_unit) (v : T) :
  is_zero (of_int 9) = false -> is_zero (of_int 5) = false ->
  convert_temperature v (temp_name f) (temp_name t)
  = inr (spec_from_celsius t (spec_to_celsius f v)).
Proof.
  intros H9 H5.
  destruct f, t; unfold convert_temperature, truediv; simpl;
    rewrite ?H9, ?H5; simpl; rewrite ?H9, ?H5; reflexivity.
Qed.

Lemma factor_Some (c u : string) (f : T) :
  factor c u = Some f ->
  exists d x, getitem CONVERSIONS c = inr d /\ getitem d u = inr x
              /\ to_number x = inr f.
Proof.
  unfold factor, rbind.
  destruct (getitem CONVERSIONS c) as [e|d]; [discriminate|].
  destruct (getitem d u) as [e|x] eqn:Hu; [discriminate|].
  destruct (to_number x) as [e|f'] eqn:Hx; [discriminate|].
  intros [= <-]. exists d, x. auto.
Qed.
End EngineFacts.

(** ** Facts read off the table *)

Lemma keys_nodup :
  nodup_keys (keys CONVERSIONS) = true
  /\ forallb (fun cd => nodup_keys (keys (snd cd))) CONVERSIONS = true.
Proof. split; vm_compute; reflexivity. Qed.

Lemma int_literals_exact : linear_entries_ok small_int CONVERSIONS = true.
Proof. vm_compute; reflexivity. Qed.

Lemma float_factors_nonzero :
  linear_entries_ok (nonzero_number (T:=float)) CONVERSIONS = true.
Proof. vm_compute; reflexivity. Qed.

Lemma Q_factors_nonzero :
  linear_entries_ok (nonzero_number (T:=Q)) CONVERSIONS = true.
Proof. vm_compute; reflexivity. Qed.

Lemma float_factors_positive :
  linear_entries_ok positive_float CONVERSIONS = true.
Proof. vm_compute; reflexivity. Qed.

Lemma linear_eqb (c : string) :
  linear c -> String.eqb c "Temperature" = false.
Proof. intros [_ Hc]. now apply String.eqb_neq. Qed.

Lemma is_category_cases (c : string) :
  is_category c ->
  (c = "Length" \/ c = "Weight/Mass" \/ c = "Temperature" \/ c = "Area"
   \/ c = "Volume" \/ c = "Speed" \/ c = "Time" \/ c = "Digital Storage"
   \/ c = "Energy" \/ c = "Pressure")%string.
Proof.
  unfold is_category. simpl. intros Hc.
  repeat (destruct Hc as [Hc|Hc]; [subst c; tauto|]). contradiction.
Qed.

Lemma unit_of_category (c u : string) : unit_of c u -> is_category c.
Proof. intros (d & Hd & _). exact (getitem_key _ _ Hd). Qed.

Lemma temperature_units (u : string) :
  unit_of "Temperature" u -> exists t, u = temp_name t.
Proof.
  intros (d & Hd & Hu). vm_compute in Hd. injection Hd as <-.
  simpl in Hu.
  destruct Hu as [<-|[<-|[<-|[]]]];
    [exists Celsius|exists Fahrenheit|exists Kelvin]; reflexivity.
Qed.

Section LinearFacts.
Context {T : Type} `{Number T}.
Hypothesis factors_nonzero :
  linear_entries_ok (nonzero_number (T:=T)) CONVERSIONS = true.

Lemma linear_factor (c u : string) :
  linear c -> unit_of c u ->
  exists d x f,
    getitem CONVERSIONS c = inr d /\ getitem d u = inr x
    /\ to_number x = inr f /\ is_zero f = false /\ factor c u = Some f.
Proof.
  intros Hl (d & Hd & Hu).
  destruct (key_getitem _ _ Hu) as [x Hx].
  pose proof (linear_entries_ok_spec _ _ _ _ factors_nonzero
                (linear_eqb Hl) Hd Hx) as Hp.
  unfold nonzero_number in Hp.
  destruct (to_number x) as [e|f] eqn:Hf; [discriminate|].
  exists d, x, f. repeat split; auto.
  - now apply negb_true_iff.
  - unfold factor, rbind. now rewrite Hd, Hx, Hf.
Qed.

Lemma convert_linear (c a b : string) (v : T) :
  linear c -> unit_of c a -> unit_of c b ->
  exists fa fb,
    factor c a = Some fa /\ factor c b = Some fb
    /\ is_zero fa = false /\ is_zero fb = false
    /\ eval (convert c a b v) CONVERSIONS = inr (quot (mul v fa) fb).
Proof.
  intros Hl Ha Hb.
  destruct (linear_factor Hl Ha) as (d & xa & fa & Hd & Hxa & Hfa & Hza & Fa).
  destruct (linear_factor Hl Hb) as (d' & xb & fb & Hd' & Hxb & Hfb & Hzb & Fb).
  assert (d' = d) as -> by congruence.
  exists fa, fb. repeat split; auto.
  eapply convert_linear_eval; eauto using linear_eqb.
Qed.

Hypothesis nine_nonzero : is_zero (of_int 9) = false.
Hypothesis five_nonzero : is_zero (of_int 5) = false.

(** [convert_temperature] returns on all unit names. *)
Lemma convert_temperature_total (v : T) (a b : string) :
  exists r, convert_temperature v a b = inr r.
Proof.
  unfold convert_temperature, truediv, rbind.
  rewrite nine_nonzero, five_nonzero.
  destruct (String.eqb a "Fahrenheit"), (String.eqb a "Kelvin"),
    (String.eqb b "Fahrenheit"), (String.eqb b "Kelvin"); eauto.
Qed.

(** The engine raises [KeyError] or nothing. *)
Lemma convert_result (c a b : string) (v : T) :
  match eval (convert c a b v) CONVERSIONS with
  | inr _ =>
      is_category c
      /\ (c <> "Temperature"%string -> unit_of c a /\ unit_of c b)
  | inl e =>
      c <> "Temperature"%string
      /\ ((e = KeyError c /\ ~ is_category c)
          \/ (e = KeyError a /\ is_category c /\ ~ unit_of c a)
          \/ (e = KeyError b /\ is_category c /\ ~ unit_of c b))
  end.
Proof.
  destruct (String.eqb_spec c "Temperature") as [->|Hc].
  - unfold eval, convert. simpl String.eqb. cbv iota. unfold lift.
    destruct (convert_temperature_total v a b) as [r ->]. simpl.
    split; [|congruence]. unfold is_category. simpl. tauto.
  - destruct (getitem CONVERSIONS c) as [e|d] eqn:Hd.
    + destruct (getitem_error _ _ Hd) as [-> Hn].
      unfold eval, convert, bind, global_getitem.
      apply String.eqb_neq in Hc. rewrite Hc, Hd. simpl.
      apply String.eqb_neq in Hc. auto.
    + assert (Hcat : is_category c) by exact (getitem_key _ _ Hd).
      assert (Hl : linear c) by (split; assumption).
      assert (Hun : forall u, unit_of c u -> In u (keys d)).
      { intros u (d' & Hd' & Hu). congruence. }
      destruct (getitem d a) as [e|xa] eqn:Hxa.
      * destruct (getitem_error _ _ Hxa) as [-> Hn].
        unfold eval, convert, bind, global_getitem, lift.
        rewrite (linear_eqb Hl), Hd, Hxa. simpl.
        split; [assumption|]. right. left.
        split; [reflexivity|split; [assumption|]].
        intros Hu. exact (Hn (Hun _ Hu)).
      * assert (Ha : unit_of c a).
        { exists d. split; [assumption|]. exact (getitem_key _ _ Hxa). }
        destruct (getitem d b) as [e|xb] eqn:Hxb.
        -- destruct (getitem_error _ _ Hxb) as [-> Hn].
           destruct (linear_factor Hl Ha) as (d' & x & fa & Hd' & Hx & Hfa & _).
           assert (d' = d) as -> by congruence.
           assert (x = xa) as -> by congruence.
           unfold eval, convert, bind, global_getitem, lift.
           rewrite (linear_eqb Hl), Hd, Hxa, Hfa, Hxb. simpl.
           split; [assumption|]. right. right.
           split; [reflexivity|split; [assumption|]].
           intros Hu. exact (Hn (Hun _ Hu)).
        -- assert (Hb : unit_of c b).
           { exists d. split; [assumption|]. exact (getitem_key _ _ Hxb). }
           destruct (convert_linear v Hl Ha Hb) as (fa & fb & _ & _ & _ & _ & ->).
           auto.
Qed.
End LinearFacts.

(** ** The two instances *)

Lemma float_nine : is_zero (of_int 9 : float) = false.
Proof. reflexivity. Qed.

Lemma float_five : is_zero (of_int 5 : float) = false.
Proof. reflexivity. Qed.

Lemma Q_nine : is_zero (of_int 9 : Q) = false.
Proof. reflexivity. Qed.

Lemma Q_five : is_zero (of_int 5 : Q) = false.
Proof. reflexivity. Qed.

Lemma Q_is_zero (q : Q) : is_zero q = false -> ~ q == 0.
Proof.
  simpl. intros Hq Heq. apply Qeq_bool_iff in Heq. congruence.
Qed.

(** Telling two binary64 values apart by a boolean test that computes. *)
Lemma float_neq_by (p : float -> bool) (x y : float) :
  p x = true -> p y = false -> x <> y.
Proof. intros Hx Hy Heq. rewrite Heq in Hx. congruence. Qed.

(** ** Binary64: multiplying and dividing by one

    Both are the identity on every binary64 value, the infinities, the
    zeros and not-a-number included; proved from the specification of the
    primitive operations. *)

Lemma Prim2SF_one : Prim2SF 1%float = SF_one.
Proof. reflexivity. Qed.

Lemma shr_52 (m : positive) :
  iter_pos shr_1 52
    {| shr_m := Zpos (4503599627370496 * m); shr_r := false; shr_s := false |}
  = {| shr_m := Zpos m; shr_r := false; shr_s := false |}.
Proof. reflexivity. Qed.

Lemma digits2_52 (m : positive) :
  Zpos (digits2_pos (4503599627370496 * m)) = (Zpos (digits2_pos m) + 52)%Z.
Proof.
  cbn [Pos.mul digits2_pos]. rewrite !Pos2Z.inj_succ. lia.
Qed.

Lemma bounded_canonical (m : positive) (e : Z) :
  bounded prec emax m e = true ->
  fexp prec emax (Zpos (digits2_pos m) + e) = e /\ (e <=? emax - prec)%Z = true.
Proof.
  unfold bounded, canonical_mantissa. intros Hb.
  apply andb_prop in Hb. destruct Hb as [Hc He].
  apply Z.eqb_eq in Hc. auto.
Qed.

(** Rounding a canonical mantissa changes nothing. *)
Lemma round_canonical (s : bool) (m : positive) (e : Z) :
  bounded prec emax m e = true ->
  binary_round_aux prec emax s (Zpos m) e loc_Exact = S754_finite s m e.
Proof.
  intros Hb. destruct (bounded_canonical _ _ Hb) as [Hc He].
  unfold binary_round_aux, shr_fexp. cbn [Zdigits2 shr_record_of_loc].
  rewrite Hc, Z.sub_diag. cbn [shr shr_m loc_of_shr_record round_nearest_even].
  cbn [Zdigits2 shr_record_of_loc]. rewrite Hc, Z.sub_diag.
  cbn [shr shr_m]. now rewrite He.
Qed.

Lemma SF64mul_one (x : spec_float) :
  valid_binary x = true -> SF64mul x SF_one = x.
Proof.
  destruct x as [s|s| |s m e]; try (destruct s; reflexivity); [reflexivity|].
  intros Hb. cbn [valid_binary] in Hb.
  destruct (bounded_canonical _ _ Hb) as [Hc He].
  unfold SF64mul, SF_one, SFmul. rewrite xorb_false_r, Pos.mul_comm.
  unfold binary_round_aux, shr_fexp at 1.
  cbn [Zdigits2 shr_record_of_loc]. rewrite digits2_52.
  replace (Zpos (digits2_pos m) + 52 + (e + -52))%Z
    with (Zpos (digits2_pos m) + e)%Z by lia.
  rewrite Hc. replace (e - (e + -52))%Z with 52%Z by lia.
  cbn [shr]. rewrite shr_52.
  cbn [shr_m loc_of_shr_record round_nearest_even].
  replace (e + -52 + 52)%Z with e by lia.
  unfold shr_fexp. cbn [Zdigits2 shr_record_of_loc]. rewrite Hc, Z.sub_diag.
  cbn [shr shr_m]. now rewrite He.
Qed.

Lemma float_mul_one (x : float) : (x * 1)%float = x.
Proof.
  apply Prim2SF_inj. rewrite mul_spec, Prim2SF_one.
  apply SF64mul_one, Prim2SF_valid.
Qed.

Lemma div_eucl_mul (q : Z) (b : positive) :
  Z.div_eucl (q * Zpos b) (Zpos b) = (q, 0%Z).
Proof.
  pose proof (Z.div_mul q (Zpos b) ltac:(lia)) as Hd.
  pose proof (Z.mod_mul q (Zpos b) ltac:(lia)) as Hm.
  unfold Z.div, Z.modulo in Hd, Hm.
  destruct (Z.div_eucl (q * Zpos b) (Zpos b)) as [q' r']. congruence.
Qed.

Lemma SF64div_one (x : spec_float) :
  valid_binary x = true -> SF64div x SF_one = x.
Proof.
  destruct x as [s|s| |s m e]; try (destruct s; reflexivity); [reflexivity|].
  intros Hb. cbn [valid_binary] in Hb.
  destruct (bounded_canonical _ _ Hb) as [Hc He].
  unfold SF64div, SF_one, SFdiv, SFdiv_core_binary.
  rewrite xorb_false_r. cbn [Zdigits2 digits2_pos Pos.succ].
  set (D := Zpos (digits2_pos m)) in *.
  assert (Hcase : fexp prec emax (D + e - (53 + -52)) = e
                  \/ (fexp prec emax (D + e - (53 + -52)) = e - 1)%Z).
  { unfold fexp, emin, prec, emax in *. lia. }
  destruct Hcase as [Hf|Hf]; rewrite Hf.
  - replace (Z.min e (e - -52)) with e by lia.
    replace (e - -52 - e)%Z with 52%Z by lia.
    replace (Z.shiftl (Zpos m) 52) with (Zpos m * 4503599627370496)%Z
      by (rewrite Z.shiftl_mul_pow2; [reflexivity|lia]).
    rewrite div_eucl_mul. cbv [new_location Z.even new_location_even Z.eqb].
    now apply round_canonical.
  - replace (Z.min (e - 1) (e - -52)) with (e - 1)%Z by lia.
    replace (e - -52 - (e - 1))%Z with 53%Z by lia.
    replace (Z.shiftl (Zpos m) 53) with (Zpos m~0 * 4503599627370496)%Z
      by (rewrite Z.shiftl_mul_pow2; [|lia];
          change (2 ^ 53)%Z with (2 * 4503599627370496)%Z; lia).
    rewrite div_eucl_mul. cbv [new_location Z.even new_location_even Z.eqb].
    unfold binary_round_aux, shr_fexp at 1.
    cbn [Zdigits2 digits2_pos shr_record_of_loc]. rewrite Pos2Z.inj_succ.
    fold D. replace (Z.succ D + (e - 1))%Z with (D + e)%Z by lia.
    rewrite Hc. replace (e - (e - 1))%Z with 1%Z by lia.
    cbn [shr iter_pos shr_1 orb shr_m loc_of_shr_record round_nearest_even].
    replace (e - 1 + 1)%Z with e by lia.
    unfold shr_fexp. cbn [Zdigits2 shr_record_of_loc]. fold D.
    rewrite Hc, Z.sub_diag. cbn [shr shr_m]. now rewrite He.
Qed.

Lemma float_div_one (x : float) : (x / 1)%float = x.
Proof.
  apply Prim2SF_inj. rewrite div_spec, Prim2SF_one.
  apply SF64div_one, Prim2SF_valid.
Qed.

(** * Properties of the engine *)

(** ** Linear categories *)

(** C1, as the code has it.  For a linear category and two of its units the
    engine returns [v * factor(a) / factor(b)], the product first and the
    quotient second, each rounded to binary64; in exact rational arithmetic
    the same expression is returned and scaling the input by [k] scales the
    result by [k]. *)
Theorem convert_linear_formula
        (c a b : string) (v : float) (k w : Q) :
  linear c -> unit_of c a -> unit_of c b ->
  (exists fa fb : float,
      factor c a = Some fa /\ factor c b = Some fb
      /\ eval (convert c a b v) CONVERSIONS = inr (v * fa / fb)%float)
  /\ (exists qa qb r rk : Q,
         factor c a = Some qa /\ factor c b = Some qb
         /\ eval (convert c a b w) CONVERSIONS = inr r
         /\ r = (w * qa / qb)%Q
         /\ eval (convert c a b (k * w)%Q) CONVERSIONS = inr rk
         /\ (rk == k * r)%Q).
Proof.
  intros Hl Ha Hb. split.
  - destruct (convert_linear float_factors_nonzero v Hl Ha Hb)
      as (fa & fb & Fa & Fb & _ & _ & Hr).
    exists fa, fb. auto.
  - destruct (convert_linear Q_factors_nonzero w Hl Ha Hb)
      as (qa & qb & Fa & Fb & _ & Hzb & Hr).
    destruct (convert_linear Q_factors_nonzero (k * w)%Q Hl Ha Hb)
      as (qa' & qb' & Fa' & Fb' & _ & _ & Hrk).
    assert (qa' = qa) as -> by congruence.
    assert (qb' = qb) as -> by congruence.
    exists qa, qb, (w * qa / qb)%Q, (k * w * qa / qb)%Q.
    repeat split; auto.
    apply Q_is_zero in Hzb. simpl. field. exact Hzb.
Qed.

Lemma convert_linear_formula_witness :
  (linear "Length" /\ unit_of "Length" "Kilometers"
   /\ unit_of "Length" "Meters")
  /\ (exists fa fb : float,
         factor "Length" "Kilometers" = Some fa
         /\ factor "Length" "Meters" = Some fb
         /\ eval (convert "Length" "Kilometers" "Meters" 2%float) CONVERSIONS
            = inr (2 * fa / fb)%float)
  /\ (exists qa qb r rk : Q,
         factor "Length" "Kilometers" = Some qa
         /\ factor "Length" "Meters" = Some qb
         /\ eval (convert "Length" "Kilometers" "Meters" (1 # 2)%Q) CONVERSIONS
            = inr r
         /\ r = ((1 # 2) * qa / qb)%Q
         /\ eval (convert "Length" "Kilometers" "Meters" (3 * (1 # 2))%Q)
                 CONVERSIONS = inr rk
         /\ (rk == 3 * r)%Q).
Proof.
  assert (Hl : linear "Length").
  { split; [vm_compute; tauto|discriminate]. }
  assert (Ha : unit_of "Length" "Kilometers").
  { eexists. split; [reflexivity|]. vm_compute. tauto. }
  assert (Hb : unit_of "Length" "Meters").
  { eexists. split; [reflexivity|]. vm_compute. tauto. }
  split; [auto|].
  exact (convert_linear_formula 2%float 3%Q (1 # 2)%Q Hl Ha Hb).
Defined.

(** C1, as stated, fails in binary64: three times one metre in feet is not
    three times (one metre in feet). *)
Lemma convert_scaling_counterexample :
  eval (convert "Length" "Meters" "Feet" (3 * 1)%float) CONVERSIONS
  = inr 9.8425196850393704%float
  /\ (r <~ eval (convert "Length" "Meters" "Feet" 1%float) CONVERSIONS ;;
      inr (3 * r)%float)%py
     = inr 9.8425196850393686%float
  /\ 9.8425196850393704%float <> 9.8425196850393686%float.
Proof.
  split; [reflexivity|]. split; [reflexivity|].
  apply (float_neq_by (fun x => PrimFloat.eqb x 9.8425196850393704%float));
    reflexivity.
Qed.

(** ** Temperature *)

(** C2.  On the three temperature units the engine is the composition of
    the two steps of the specification, also when both units coincide. *)
Theorem temperature_two_step (f t : temp_unit) (v : float) :
  eval (convert "Temperature" (temp_name f) (temp_name t) v) CONVERSIONS
  = inr (spec_from_celsius t (spec_to_celsius f v))
  /\ spec_to_celsius Fahrenheit v = ((v - 32) * 5 / 9)%float
  /\ spec_to_celsius Kelvin v = (v - 273.15)%float
  /\ spec_to_celsius Celsius v = v
  /\ spec_from_celsius Fahrenheit v = ((v * 9 / 5) + 32)%float
  /\ spec_from_celsius Kelvin v = (v + 273.15)%float
  /\ spec_from_celsius Celsius v = v
  /\ eval (convert "Temperature" "Fahrenheit" "Fahrenheit" 0.1%float)
          CONVERSIONS
     = inr 0.10000000000000142%float.
Proof.
  split.
  - unfold eval, convert. simpl String.eqb. cbv iota. unfold lift, fst.
    apply convert_temperature_two_step; reflexivity.
  - repeat split; reflexivity.
Qed.

(** C10.  Celsius to Celsius hands the value back untouched, whatever the
    value is. *)
Theorem celsius_to_celsius_exact (v : float) :
  eval (convert "Temperature" "Celsius" "Celsius" v) CONVERSIONS = inr v.
Proof. reflexivity. Qed.

(** ** Reference values *)

(** C5.  The five reference conversions, evaluated in binary64. *)
Theorem known_fixed_points :
  eval (convert "Length" "Kilometers" "Meters" 1%float) CONVERSIONS
  = inr 1000%float
  /\ eval (convert "Weight/Mass" "Pounds" "Kilograms" 1%float) CONVERSIONS
     = inr 0.453592%float
  /\ eval (convert "Temperature" "Celsius" "Fahrenheit" 100%float) CONVERSIONS
     = inr 212%float
  /\ eval (convert "Temperature" "Fahrenheit" "Celsius" 32%float) CONVERSIONS
     = inr 0%float
  /\ eval (convert "Temperature" "Celsius" "Kelvin" 0%float) CONVERSIONS
     = inr 273.15%float.
Proof. repeat split; reflexivity. Qed.

(** ** Identity and round trip *)

(** In exact arithmetic the two temperature steps are inverse to each
    other. *)
Lemma Q_temperature_inverse (t : temp_unit) (v : Q) :
  (spec_to_celsius t (spec_from_celsius t v) == v)%Q
  /\ (spec_from_celsius t (spec_to_celsius t v) == v)%Q.
Proof.
  destruct t; unfold spec_to_celsius, spec_from_celsius;
    cbn [add sub mul quot of_int of_float Q_Number];
    try generalize (float2Q 273.15); intros; split;
      try reflexivity; unfold inject_Z; field.
Qed.

Lemma Q_temperature_eval (f t : temp_unit) (v : Q) :
  eval (convert "Temperature" (temp_name f) (temp_name t) v) CONVERSIONS
  = inr (spec_from_celsius t (spec_to_celsius f v)).
Proof.
  unfold eval, convert. simpl String.eqb. cbv iota. unfold lift, fst.
  apply convert_temperature_two_step; reflexivity.
Qed.

Lemma spec_from_celsius_Qeq (t : temp_unit) (x y : Q) :
  (x == y)%Q -> (spec_from_celsius t x == spec_from_celsius t y)%Q.
Proof.
  intros Hxy. destruct t; unfold spec_from_celsius;
    cbn [add sub mul quot of_int of_float Q_Number]; now rewrite Hxy.
Qed.

(** C3, as the code has it.  In exact rational arithmetic converting a unit
    to itself returns the value, for every category, every unit of it and
    every value.  In binary64 the value comes back bit for bit when the unit
    has factor 1. *)
Theorem convert_identity_exact (c u : string) (v : Q) (x : float) :
  unit_of c u ->
  (exists r : Q, eval (convert c u u v) CONVERSIONS = inr r /\ (r == v)%Q)
  /\ (factor c u = Some 1%float ->
      eval (convert c u u x) CONVERSIONS = inr x).
Proof.
  intros Hu.
  destruct (String.eqb_spec c "Temperature") as [->|Hc].
  - destruct (temperature_units Hu) as [t ->]. split.
    + eexists. rewrite Q_temperature_eval. split; [reflexivity|].
      apply Q_temperature_inverse.
    + destruct t; discriminate.
  - assert (Hl : linear c) by (split; [exact (unit_of_category Hu)|exact Hc]).
    split.
    + destruct (convert_linear Q_factors_nonzero v Hl Hu Hu)
        as (f & f' & F & F' & Hz & _ & Hr).
      assert (f' = f) as -> by congruence.
      eexists. split; [exact Hr|].
      apply Q_is_zero in Hz. simpl. field. exact Hz.
    + intros Hone.
      destruct (convert_linear float_factors_nonzero x Hl Hu Hu)
        as (f & f' & F & F' & _ & _ & Hr).
      assert (f = 1%float) as -> by congruence.
      assert (f' = 1%float) as -> by congruence.
      rewrite Hr. cbn [quot mul float_Number].
      now rewrite float_mul_one, float_div_one.
Qed.

Lemma convert_identity_exact_witness :
  unit_of "Length" "Meters"
  /\ (exists r : Q,
         eval (convert "Length" "Meters" "Meters" (7 # 1)%Q) CONVERSIONS
         = inr r /\ (r == 7 # 1)%Q)
  /\ eval (convert "Length" "Meters" "Meters" 0.1%float) CONVERSIONS
     = inr 0.1%float.
Proof.
  assert (Hu : unit_of "Length" "Meters").
  { eexists. split; [reflexivity|]. vm_compute. tauto. }
  split; [exact Hu|].
  destruct (convert_identity_exact (7 # 1)%Q 0.1%float Hu) as [HQ Hf].
  split; [exact HQ|]. apply Hf. reflexivity.
Defined.

(** C3, as stated, fails in binary64: seven feet in feet is not seven. *)
Lemma convert_identity_counterexample :
  unit_of "Length" "Feet"
  /\ eval (convert "Length" "Feet" "Feet" 7%float) CONVERSIONS
     = inr 6.9999999999999991%float
  /\ 6.9999999999999991%float <> 7%float.
Proof.
  split.
  { eexists. split; [reflexivity|]. vm_compute. tauto. }
  split; [reflexivity|].
  apply (float_neq_by (fun x => PrimFloat.ltb x 7%float)); reflexivity.
Qed.

(** C4, as the code has it.  In exact rational arithmetic converting from
    [a] to [b] and back returns the value, for every category and every
    pair of its units. *)
Theorem convert_round_trip_exact (c a b : string) (v : Q) :
  unit_of c a -> unit_of c b ->
  exists r r' : Q,
    eval (convert c a b v) CONVERSIONS = inr r
    /\ eval (convert c b a r) CONVERSIONS = inr r'
    /\ (r' == v)%Q.
Proof.
  intros Ha Hb.
  destruct (String.eqb_spec c "Temperature") as [->|Hc].
  - destruct (temperature_units Ha) as [ta ->].
    destruct (temperature_units Hb) as [tb ->].
    do 2 eexists. rewrite !Q_temperature_eval.
    split; [reflexivity|]. split; [reflexivity|].
    transitivity (spec_from_celsius ta (spec_to_celsius ta v)).
    + apply spec_from_celsius_Qeq, Q_temperature_inverse.
    + apply Q_temperature_inverse.
  - assert (Hl : linear c) by (split; [exact (unit_of_category Ha)|exact Hc]).
    destruct (convert_linear Q_factors_nonzero v Hl Ha Hb)
      as (fa & fb & Fa & Fb & Hza & Hzb & Hr).
    destruct (convert_linear Q_factors_nonzero (quot (mul v fa) fb) Hl Hb Ha)
      as (fb' & fa' & Fb' & Fa' & _ & _ & Hr').
    assert (fa' = fa) as -> by congruence.
    assert (fb' = fb) as -> by congruence.
    do 2 eexists. split; [exact Hr|]. split; [exact Hr'|].
    apply Q_is_zero in Hza, Hzb. simpl. field. split; assumption.
Qed.

Lemma convert_round_trip_exact_witness :
  (unit_of "Temperature" "Fahrenheit" /\ unit_of "Temperature" "Kelvin")
  /\ exists r r' : Q,
      eval (convert "Temperature" "Fahrenheit" "Kelvin" (451 # 1)%Q)
           CONVERSIONS = inr r
      /\ eval (convert "Temperature" "Kelvin" "Fahrenheit" r) CONVERSIONS
         = inr r'
      /\ (r' == 451 # 1)%Q.
Proof.
  assert (Ha : unit_of "Temperature" "Fahrenheit").
  { eexists. split; [reflexivity|]. vm_compute. tauto. }
  assert (Hb : unit_of "Temperature" "Kelvin").
  { eexists. split; [reflexivity|]. vm_compute. tauto. }
  split; [auto|].
  exact (convert_round_trip_exact (451 # 1)%Q Ha Hb).
Defined.

(** C4, as stated, fails in binary64: [1e306] kilometres is finite, its
    value in millimetres overflows, and the way back stays at infinity. *)
Lemma convert_round_trip_counterexample :
  PrimFloat.is_finite 1e306%float = true
  /\ eval (convert "Length" "Kilometers" "Millimeters" 1e306%float)
          CONVERSIONS = inr infinity
  /\ eval (convert "Length" "Millimeters" "Kilometers" infinity) CONVERSIONS
     = inr infinity
  /\ PrimFloat.is_finite infinity = false.
Proof. repeat split; reflexivity. Qed.

(** ** Errors *)

(** C6, as the code has it.  The engine fails exactly when the category is
    absent, or the category is linear and one of the two units is absent
    from it; the failure is then the [KeyError] of the missing key, and
    nothing else is ever raised.  For Temperature the units are not looked
    up: the call returns for all unit names.  Infinities and not-a-number
    go through. *)
Theorem convert_error_cases (c a b : string) (v : float) :
  ((exists e, eval (convert c a b v) CONVERSIONS = inl e)
   <-> (~ is_category c
        \/ (c <> "Temperature"%string
            /\ (~ unit_of c a \/ ~ unit_of c b))))
  /\ (forall e, eval (convert c a b v) CONVERSIONS = inl e ->
                e = KeyError c \/ e = KeyError a \/ e = KeyError b)
  /\ (exists r, eval (convert "Temperature" a b v) CONVERSIONS = inr r)
  /\ eval (convert "Length" "Meters" "Feet" infinity) CONVERSIONS
     = inr infinity
  /\ eval (convert "Length" "Meters" "Feet" nan) CONVERSIONS = inr nan.
Proof.
  pose proof (convert_result float_factors_nonzero float_nine float_five
                c a b v) as Hres.
  pose proof (convert_result float_factors_nonzero float_nine float_five
                "Temperature" a b v) as Htemp.
  split; [|split; [|split; [|split; reflexivity]]].
  - split.
    + intros [e He]. rewrite He in Hres.
      destruct Hres as [Hc [[_ Hn]|[[_ [_ Hn]]|[_ [_ Hn]]]]]; tauto.
    + intros Hnf.
      destruct (eval (convert c a b v) CONVERSIONS) as [e|r]; [eauto|].
      exfalso. destruct Hres as [Hcat Hu]. tauto.
  - intros e He. rewrite He in Hres.
    destruct Hres as [_ [[-> _]|[[-> _]|[-> _]]]]; auto.
  - destruct (eval (convert "Temperature" a b v) CONVERSIONS) as [e|r];
      [|eauto].
    exfalso. destruct Htemp as [Hc _]. now apply Hc.
Qed.

Lemma convert_error_cases_witness :
  (exists e, eval (convert "Length" "Furlongs" "Meters" 1%float) CONVERSIONS
             = inl e)
  /\ (exists e, eval (convert "Imaginary" "A" "B" 1%float) CONVERSIONS
                = inl e).
Proof.
  split.
  - apply (proj1 (convert_error_cases "Length" "Furlongs" "Meters" 1%float)).
    right. split; [discriminate|]. left.
    intros (d & Hd & Hu). vm_compute in Hd. injection Hd as <-.
    vm_compute in Hu. intuition discriminate.
  - apply (proj1 (convert_error_cases "Imaginary" "A" "B" 1%float)).
    left. vm_compute. intuition discriminate.
Defined.

(** C6, as stated, fails on Temperature: a unit that is not in the table is
    taken for Celsius and a value is returned. *)
Lemma convert_not_found_counterexample :
  is_category "Temperature"
  /\ ~ unit_of "Temperature" "Rankine"
  /\ eval (convert "Temperature" "Rankine" "Kelvin" 0%float) CONVERSIONS
     = inr 273.15%float.
Proof.
  split; [vm_compute; tauto|]. split; [|reflexivity].
  intros (d & Hd & Hu). vm_compute in Hd. injection Hd as <-.
  vm_compute in Hu. intuition discriminate.
Qed.

(** ** Listings *)

(** C7.  [categories()] is the list of the ten documented categories and
    [units("Length")] the list of the nine length units, both in the order
    of the table and the same after any history of calls; [units] of an
    absent category is a [KeyError]. *)
Theorem listings (h : list (op float)) (c : string) :
  eval categories (exec_ops h CONVERSIONS)
  = inr [ "Length"; "Weight/Mass"; "Temperature"; "Area"; "Volume"; "Speed";
          "Time"; "Digital Storage"; "Energy"; "Pressure" ]%string
  /\ eval (units "Length") (exec_ops h CONVERSIONS)
     = inr [ "Meters"; "Kilometers"; "Centimeters"; "Millimeters"; "Miles";
             "Yards"; "Feet"; "Inches"; "Nautical Miles" ]%string
  /\ map (fun cd => (fst cd, length (snd cd))) CONVERSIONS = documented
  /\ (~ is_category c -> eval (units c) CONVERSIONS = inl (KeyError c))
  /\ (is_category c -> exists l, eval (units c) CONVERSIONS = inr l).
Proof.
  rewrite exec_ops_state.
  split; [reflexivity|]. split; [reflexivity|]. split; [reflexivity|].
  unfold eval, units, bind, global_getitem, ret. split.
  - intros Hc. now rewrite (getitem_missing _ _ Hc).
  - intros Hc. destruct (key_getitem _ _ Hc) as [d ->]. simpl. eauto.
Qed.

Lemma listings_witness :
  eval (units "Imaginary") CONVERSIONS = inl (KeyError "Imaginary")
  /\ exists l, eval (units "Speed") CONVERSIONS = inr l.
Proof.
  split.
  - apply (proj1 (proj2 (proj2 (proj2 (listings [] "Imaginary"))))).
    vm_compute. intuition discriminate.
  - apply (proj2 (proj2 (proj2 (proj2 (listings [] "Speed"))))).
    vm_compute. tauto.
Defined.

(** ** The table invariant *)

Lemma factor_one_unique (c u u0 : string) (d : dict pyval) :
  getitem CONVERSIONS c = inr d ->
  hd_error (keys d) = Some u0 ->
  forallb (fun ux => String.eqb (fst ux) u0
                     || match to_number (T:=float) (snd ux) with
                        | inr f => negb (PrimFloat.eqb f 1%float)
                        | inl _ => true
                        end) d = true ->
  factor c u = Some 1%float -> u = u0.
Proof.
  intros Hd _ Hall Hf.
  destruct (factor_Some _ _ Hf) as (d' & x & Hd' & Hx & Hn).
  assert (d' = d) as -> by congruence.
  rewrite forallb_forall in Hall.
  specialize (Hall _ (getitem_In _ _ Hx)). simpl in Hall.
  rewrite Hn in Hall.
  destruct (String.eqb_spec u u0) as [|Hne]; [assumption|].
  simpl in Hall. discriminate.
Qed.

(** C8.  Every factor of a linear category is strictly positive, exactly one
    unit of each linear category has factor 1, and no operation of the
    module changes the table, whatever state it is run in. *)
Theorem table_invariant (c u : string) (o : op float) (s : table) :
  (linear c -> unit_of c u ->
   exists f : float, factor c u = Some f /\ PrimFloat.ltb 0 f = true)
  /\ (linear c ->
      exists u0, unit_of c u0 /\ factor c u0 = Some 1%float
                 /\ forall u', factor c u' = Some 1%float -> u' = u0)
  /\ exec_op o s = s.
Proof.
  split; [|split].
  - intros Hl (d & Hd & Hu).
    destruct (key_getitem _ _ Hu) as [x Hx].
    pose proof (linear_entries_ok_spec _ _ _ _ float_factors_positive
                  (linear_eqb Hl) Hd Hx) as Hp.
    unfold positive_float in Hp.
    destruct (to_number x) as [e|f] eqn:Hf; [discriminate|].
    exists f. split; [|exact Hp].
    unfold factor, rbind. now rewrite Hd, Hx, Hf.
  - intros [Hcat Hc].
    destruct (is_category_cases Hcat)
      as [->|[->|[->|[->|[->|[->|[->|[->|[->| ->]]]]]]]]];
      try congruence;
      (eexists; split;
       [eexists; split; [reflexivity|left; reflexivity]
       |split; [reflexivity|]];
       intros u'; eapply factor_one_unique; reflexivity).
  - apply exec_op_state.
Qed.

Lemma table_invariant_witness :
  (exists f : float,
      factor "Energy" "Electron-volts" = Some f /\ PrimFloat.ltb 0 f = true)
  /\ (exists u0, unit_of "Energy" u0 /\ factor "Energy" u0 = Some 1%float
                 /\ forall u', factor "Energy" u' = Some 1%float -> u' = u0).
Proof.
  assert (Hl : linear "Energy").
  { split; [vm_compute; tauto|discriminate]. }
  assert (Hu : unit_of "Energy" "Electron-volts").
  { eexists. split; [reflexivity|]. vm_compute. tauto. }
  pose proof (table_invariant "Energy" "Electron-volts" OpCategories
                CONVERSIONS) as [H1 [H2 _]].
  split; [exact (H1 Hl Hu)|exact (H2 Hl)].
Defined.

(** ** Purity *)

(** C9.  A call of the engine leaves the module's state as it found it, and
    after any history of calls it returns what it returns on the freshly
    loaded module: equal arguments give equal results. *)
Theorem convert_pure
        (h : list (op float)) (c a b : string) (v : float) (s : table) :
  exec (convert c a b v) s = s
  /\ exec_ops h CONVERSIONS = CONVERSIONS
  /\ eval (convert c a b v) (exec_ops h CONVERSIONS)
     = eval (convert c a b v) CONVERSIONS.
Proof.
  split; [apply convert_state|].
  rewrite exec_ops_state. split; reflexivity.
Qed.

(** * Further properties *)

(** ** Which key a failure names *)

(** X1.  In a linear category the [KeyError] names the first key that is
    missing, in the order category, source unit, target unit. *)
Theorem key_error_order (c a b : string) (v : float) :
  c <> "Temperature"%string ->
  (~ is_category c ->
   eval (convert c a b v) CONVERSIONS = inl (KeyError c))
  /\ (is_category c -> ~ unit_of c a ->
      eval (convert c a b v) CONVERSIONS = inl (KeyError a))
  /\ (unit_of c a -> ~ unit_of c b ->
      eval (convert c a b v) CONVERSIONS = inl (KeyError b)).
Proof.
  intros Hc. apply String.eqb_neq in Hc.
  unfold eval, convert, bind, global_getitem, lift. rewrite Hc.
  split; [|split].
  - intros Hn. now rewrite (getitem_missing _ _ Hn).
  - intros Hcat Hn. destruct (key_getitem _ _ Hcat) as [d Hd]. rewrite Hd.
    assert (Hk : ~ In a (keys d)) by (intros Hk; apply Hn; exists d; auto).
    now rewrite (getitem_missing _ _ Hk).
  - intros Ha Hn.
    assert (Hl : linear c).
    { split; [exact (unit_of_category Ha)|now apply String.eqb_neq]. }
    destruct (linear_factor float_factors_nonzero Hl Ha)
      as (d & x & f & Hd & Hx & Hf & _).
    rewrite Hd, Hx, Hf.
    assert (Hk : ~ In b (keys d)) by (intros Hk; apply Hn; exists d; auto).
    now rewrite (getitem_missing _ _ Hk).
Qed.

Lemma key_error_order_witness :
  eval (convert "Imaginary" "A" "B" 1%float) CONVERSIONS
  = inl (KeyError "Imaginary")
  /\ eval (convert "Length" "Furlongs" "Leagues" 1%float) CONVERSIONS
     = inl (KeyError "Furlongs")
  /\ eval (convert "Length" "Feet" "Leagues" 1%float) CONVERSIONS
     = inl (KeyError "Leagues").
Proof.
  assert (Hnu : forall u, (u = "Furlongs" \/ u = "Leagues")%string ->
                          ~ unit_of "Length" u).
  { intros u Hu (d & Hd & Hk). vm_compute in Hd. injection Hd as <-.
    vm_compute in Hk. destruct Hu; subst u; intuition discriminate. }
  split; [|split].
  - apply (@key_error_order "Imaginary" "A" "B" 1%float); [discriminate|].
    vm_compute. intuition discriminate.
  - apply (@key_error_order "Length" "Furlongs" "Leagues" 1%float);
      [discriminate|vm_compute; tauto|apply Hnu; tauto].
  - apply (@key_error_order "Length" "Feet" "Leagues" 1%float);
      [discriminate| |apply Hnu; tauto].
    eexists. split; [reflexivity|]. vm_compute. tauto.
Defined.

(** ** The page never raises *)

(** X2.  Whatever the three select boxes return and whatever number is
    entered, the handler computes a result: no [KeyError], no [TypeError]
    on the strings of the Temperature entry, no division by zero. *)
Theorem page_never_raises (c a b : string) (v : float) :
  page_inputs CONVERSIONS c a b ->
  exists r, eval (convert c a b v) CONVERSIONS = inr r.
Proof.
  intros (cs & us & Hcs & Hc & Hus & Ha & Hb).
  unfold eval, categories, global_keys in Hcs. simpl in Hcs.
  injection Hcs as <-.
  unfold eval, units, bind, global_getitem, ret in Hus.
  destruct (getitem CONVERSIONS c) as [e|d] eqn:Hd; [discriminate|].
  simpl in Hus. injection Hus as <-.
  assert (Hua : unit_of c a) by (exists d; auto).
  assert (Hub : unit_of c b) by (exists d; auto).
  pose proof (convert_result float_factors_nonzero float_nine float_five
                c a b v) as Hres.
  destruct (eval (convert c a b v) CONVERSIONS) as [e|r]; [|eauto].
  exfalso. destruct Hres as [Hne [[_ Hn]|[[_ [_ Hn]]|[_ [_ Hn]]]]]; tauto.
Qed.

Lemma page_never_raises_witness :
  page_inputs CONVERSIONS "Temperature" "Kelvin" "Fahrenheit"
  /\ exists r,
      eval (convert "Temperature" "Kelvin" "Fahrenheit" nan) CONVERSIONS
      = inr r.
Proof.
  assert (Hp : page_inputs CONVERSIONS "Temperature" "Kelvin" "Fahrenheit").
  { do 2 eexists. split; [reflexivity|]. split; [vm_compute; tauto|].
    split; [reflexivity|]. split; vm_compute; tauto. }
  split; [exact Hp|]. exact (page_never_raises nan Hp).
Defined.

(** ** Units and categories *)

Lemma units_disjoint_table : units_disjoint CONVERSIONS = true.
Proof. vm_compute; reflexivity. Qed.

(** X3.  A unit name belongs to one category only, so a unit of another
    category is a [KeyError] in a linear category: nothing is converted
    across categories. *)
Theorem no_cross_category (c c' a b : string) (v : float) :
  unit_of c' a ->
  (unit_of c a -> c = c')
  /\ (linear c -> c <> c' ->
      eval (convert c a b v) CONVERSIONS = inl (KeyError a)).
Proof.
  intros (d' & Hd' & Ha').
  assert (Huniq : unit_of c a -> c = c').
  { intros (d & Hd & Ha).
    pose proof units_disjoint_table as Hall. unfold units_disjoint in Hall.
    rewrite forallb_forall in Hall.
    specialize (Hall _ (getitem_In _ _ Hd)).
    rewrite forallb_forall in Hall.
    specialize (Hall _ (getitem_In _ _ Hd')). simpl in Hall.
    destruct (String.eqb_spec c c') as [|Hne]; [assumption|].
    simpl in Hall. rewrite forallb_forall in Hall.
    specialize (Hall _ Ha). apply negb_true_iff in Hall.
    assert (Hex : existsb (String.eqb a) (keys d') = true).
    { apply existsb_exists. exists a. split; [assumption|].
      apply String.eqb_refl. }
    congruence. }
  split; [exact Huniq|].
  intros Hl Hne.
  pose proof (convert_result float_factors_nonzero float_nine float_five
                c a b v) as Hres.
  destruct Hl as [Hcat Hc].
  destruct (key_getitem _ _ Hcat) as [d Hd].
  assert (Hk : ~ In a (keys d)).
  { intros Hk. apply Hne, Huniq. exists d. auto. }
  unfold eval, convert, bind, global_getitem, lift.
  apply String.eqb_neq in Hc. rewrite Hc, Hd.
  now rewrite (getitem_missing _ _ Hk).
Qed.

Lemma no_cross_category_witness :
  unit_of "Weight/Mass" "Pounds"
  /\ eval (convert "Length" "Pounds" "Meters" 1%float) CONVERSIONS
     = inl (KeyError "Pounds").
Proof.
  assert (Hu : unit_of "Weight/Mass" "Pounds").
  { eexists. split; [reflexivity|]. vm_compute. tauto. }
  split; [exact Hu|].
  apply (proj2 (no_cross_category "Length" "Meters" 1%float Hu)).
  - split; [vm_compute; tauto|discriminate].
  - discriminate.
Defined.

(** ** Exact arithmetic: composition, order, sums *)

Lemma Q_factors_positive : linear_entries_ok positive_Q CONVERSIONS = true.
Proof. vm_compute; reflexivity. Qed.

Lemma Q_linear_positive (c u : string) (q : Q) :
  linear c -> factor c u = Some q -> (0 < q)%Q.
Proof.
  intros Hl Hf. destruct (factor_Some _ _ Hf) as (d & x & Hd & Hx & Hq).
  pose proof (linear_entries_ok_spec _ _ _ _ Q_factors_positive
                (linear_eqb Hl) Hd Hx) as Hp.
  unfold positive_Q in Hp. rewrite Hq in Hp.
  apply negb_true_iff in Hp.
  destruct (Qlt_le_dec 0 q) as [|Hle]; [assumption|].
  apply Qle_bool_iff in Hle. congruence.
Qed.

Lemma Q_temperature_monotone (f t : temp_unit) (v w : Q) :
  (v < w)%Q ->
  (spec_from_celsius t (spec_to_celsius f v)
   < spec_from_celsius t (spec_to_celsius f w))%Q.
Proof.
  intros Hvw. destruct f, t; unfold spec_to_celsius, spec_from_celsius;
    cbn [add sub mul quot of_int of_float Q_Number];
    try generalize (float2Q 273.15); intros; unfold inject_Z, Qdiv;
    try change (/ (9 # 1)) with (1 # 9); try change (/ (5 # 1)) with (1 # 5);
    lra.
Qed.

(** X4.  In exact rational arithmetic conversions compose: going from [a]
    to [b] and on to [e] is going from [a] to [e], in every category. *)
Theorem convert_chain (c a b e : string) (v : Q) :
  unit_of c a -> unit_of c b -> unit_of c e ->
  exists r1 r2 r3 : Q,
    eval (convert c a b v) CONVERSIONS = inr r1
    /\ eval (convert c b e r1) CONVERSIONS = inr r2
    /\ eval (convert c a e v) CONVERSIONS = inr r3
    /\ (r2 == r3)%Q.
Proof.
  intros Ha Hb He.
  destruct (String.eqb_spec c "Temperature") as [->|Hc].
  - destruct (temperature_units Ha) as [ta ->].
    destruct (temperature_units Hb) as [tb ->].
    destruct (temperature_units He) as [te ->].
    do 3 eexists. rewrite !Q_temperature_eval.
    repeat (split; [reflexivity|]).
    apply spec_from_celsius_Qeq, Q_temperature_inverse.
  - assert (Hl : linear c) by (split; [exact (unit_of_category Ha)|exact Hc]).
    destruct (convert_linear Q_factors_nonzero v Hl Ha Hb)
      as (fa & fb & Fa & Fb & _ & Hzb & Hr1).
    destruct (convert_linear Q_factors_nonzero (quot (mul v fa) fb) Hl Hb He)
      as (fb' & fe & Fb' & Fe & _ & Hze & Hr2).
    destruct (convert_linear Q_factors_nonzero v Hl Ha He)
      as (fa' & fe' & Fa' & Fe' & _ & _ & Hr3).
    assert (fa' = fa) as -> by congruence.
    assert (fb' = fb) as -> by congruence.
    assert (fe' = fe) as -> by congruence.
    do 3 eexists. repeat (split; [eassumption|]).
    apply Q_is_zero in Hzb, Hze. simpl. field. split; assumption.
Qed.

Lemma convert_chain_witness :
  (unit_of "Length" "Miles" /\ unit_of "Length" "Feet"
   /\ unit_of "Length" "Inches")
  /\ exists r1 r2 r3 : Q,
      eval (convert "Length" "Miles" "Feet" (5 # 2)%Q) CONVERSIONS = inr r1
      /\ eval (convert "Length" "Feet" "Inches" r1) CONVERSIONS = inr r2
      /\ eval (convert "Length" "Miles" "Inches" (5 # 2)%Q) CONVERSIONS
         = inr r3
      /\ (r2 == r3)%Q.
Proof.
  assert (Ha : unit_of "Length" "Miles").
  { eexists. split; [reflexivity|]. vm_compute. tauto. }
  assert (Hb : unit_of "Length" "Feet").
  { eexists. split; [reflexivity|]. vm_compute. tauto. }
  assert (He : unit_of "Length" "Inches").
  { eexists. split; [reflexivity|]. vm_compute. tauto. }
  split; [auto|]. exact (convert_chain (5 # 2)%Q Ha Hb He).
Defined.

(** X5.  In exact rational arithmetic every conversion keeps the order of
    the values: a larger input gives a larger result, in every category. *)
Theorem convert_monotone (c a b : string) (v w : Q) :
  unit_of c a -> unit_of c b -> (v < w)%Q ->
  exists r s : Q,
    eval (convert c a b v) CONVERSIONS = inr r
    /\ eval (convert c a b w) CONVERSIONS = inr s
    /\ (r < s)%Q.
Proof.
  intros Ha Hb Hvw.
  destruct (String.eqb_spec c "Temperature") as [->|Hc].
  - destruct (temperature_units Ha) as [ta ->].
    destruct (temperature_units Hb) as [tb ->].
    do 2 eexists. rewrite !Q_temperature_eval.
    repeat (split; [reflexivity|]).
    now apply Q_temperature_monotone.
  - assert (Hl : linear c) by (split; [exact (unit_of_category Ha)|exact Hc]).
    destruct (convert_linear Q_factors_nonzero v Hl Ha Hb)
      as (fa & fb & Fa & Fb & _ & _ & Hr).
    destruct (convert_linear Q_factors_nonzero w Hl Ha Hb)
      as (fa' & fb' & Fa' & Fb' & _ & _ & Hs).
    assert (fa' = fa) as -> by congruence.
    assert (fb' = fb) as -> by congruence.
    do 2 eexists. repeat (split; [eassumption|]).
    pose proof (Q_linear_positive _ Hl Fa) as Hpa.
    pose proof (Q_linear_positive _ Hl Fb) as Hpb.
    simpl. unfold Qdiv.
    apply Qmult_lt_compat_r; [now apply Qinv_lt_0_compat|].
    now apply Qmult_lt_compat_r.
Qed.

Lemma convert_monotone_witness :
  (unit_of "Temperature" "Fahrenheit" /\ unit_of "Temperature" "Kelvin"
   /\ (-40 # 1 < 98 # 1)%Q)
  /\ exists r s : Q,
      eval (convert "Temperature" "Fahrenheit" "Kelvin" (-40 # 1)%Q)
           CONVERSIONS = inr r
      /\ eval (convert "Temperature" "Fahrenheit" "Kelvin" (98 # 1)%Q)
              CONVERSIONS = inr s
      /\ (r < s)%Q.
Proof.
  assert (Ha : unit_of "Temperature" "Fahrenheit").
  { eexists. split; [reflexivity|]. vm_compute. tauto. }
  assert (Hb : unit_of "Temperature" "Kelvin").
  { eexists. split; [reflexivity|]. vm_compute. tauto. }
  assert (Hlt : (-40 # 1 < 98 # 1)%Q) by reflexivity.
  split; [auto|]. exact (convert_monotone Ha Hb Hlt).
Defined.

(** X6.  In exact rational arithmetic a linear conversion is additive: the
    result of a sum is the sum of the results, and zero goes to zero. *)
Theorem convert_additive (c a b : string) (v w : Q) :
  linear c -> unit_of c a -> unit_of c b ->
  exists r s t z : Q,
    eval (convert c a b v) CONVERSIONS = inr r
    /\ eval (convert c a b w) CONVERSIONS = inr s
    /\ eval (convert c a b (v + w)%Q) CONVERSIONS = inr t
    /\ eval (convert c a b 0%Q) CONVERSIONS = inr z
    /\ (t == r + s)%Q /\ (z == 0)%Q.
Proof.
  intros Hl Ha Hb.
  destruct (convert_linear Q_factors_nonzero v Hl Ha Hb)
    as (fa & fb & Fa & Fb & _ & Hzb & Hr).
  destruct (convert_linear Q_factors_nonzero w Hl Ha Hb)
    as (fa1 & fb1 & Fa1 & Fb1 & _ & _ & Hs).
  destruct (convert_linear Q_factors_nonzero (v + w)%Q Hl Ha Hb)
    as (fa2 & fb2 & Fa2 & Fb2 & _ & _ & Ht).
  destruct (convert_linear Q_factors_nonzero 0%Q Hl Ha Hb)
    as (fa3 & fb3 & Fa3 & Fb3 & _ & _ & Hz).
  assert (fa1 = fa) as -> by congruence.
  assert (fb1 = fb) as -> by congruence.
  assert (fa2 = fa) as -> by congruence.
  assert (fb2 = fb) as -> by congruence.
  assert (fa3 = fa) as -> by congruence.
  assert (fb3 = fb) as -> by congruence.
  do 4 eexists. repeat (split; [eassumption|]).
  apply Q_is_zero in Hzb. simpl. split; field; exact Hzb.
Qed.

Lemma convert_additive_witness :
  (linear "Speed" /\ unit_of "Speed" "Knots"
   /\ unit_of "Speed" "Miles per Hour")
  /\ exists r s t z : Q,
      eval (convert "Speed" "Knots" "Miles per Hour" (3 # 1)%Q) CONVERSIONS
      = inr r
      /\ eval (convert "Speed" "Knots" "Miles per Hour" (4 # 1)%Q)
              CONVERSIONS = inr s
      /\ eval (convert "Speed" "Knots" "Miles per Hour" ((3 # 1) + (4 # 1))%Q)
              CONVERSIONS = inr t
      /\ eval (convert "Speed" "Knots" "Miles per Hour" 0%Q) CONVERSIONS
         = inr z
      /\ (t == r + s)%Q /\ (z == 0)%Q.
Proof.
  assert (Hl : linear "Speed").
  { split; [vm_compute; tauto|discriminate]. }
  assert (Ha : unit_of "Speed" "Knots").
  { eexists. split; [reflexivity|]. vm_compute. tauto. }
  assert (Hb : unit_of "Speed" "Miles per Hour").
  { eexists. split; [reflexivity|]. vm_compute. tauto. }
  split; [auto|]. exact (convert_additive (3 # 1)%Q (4 # 1)%Q Hl Ha Hb).
Defined.

(** ** Binary64: signs, not-a-number, infinities *)

Lemma binary_round_aux_opp (s : bool) (m e : Z) (l : location) :
  binary_round_aux prec emax (negb s) m e l
  = SFopp (binary_round_aux prec emax s m e l).
Proof.
  unfold binary_round_aux.
  destruct (shr_fexp prec emax m e l) as [mrs e'].
  destruct (shr_fexp prec emax _ e' loc_Exact) as [mrs' e''].
  destruct (shr_m mrs'); try reflexivity.
  destruct (e'' <=? emax - prec)%Z; reflexivity.
Qed.

Lemma SF64mul_opp (x y : spec_float) :
  SF64mul (SFopp x) y = SFopp (SF64mul x y).
Proof.
  unfold SF64mul.
  destruct x as [s|s| |s m e], y as [s'|s'| |s' m' e']; cbn [SFopp SFmul];
    rewrite <- ?negb_xorb_l; try reflexivity.
  apply binary_round_aux_opp.
Qed.

Lemma SF64div_opp (x y : spec_float) :
  SF64div (SFopp x) y = SFopp (SF64div x y).
Proof.
  unfold SF64div.
  destruct x as [s|s| |s m e], y as [s'|s'| |s' m' e']; cbn [SFopp SFdiv];
    rewrite <- ?negb_xorb_l; try reflexivity.
  destruct (SFdiv_core_binary prec emax (Zpos m) e (Zpos m') e')
    as [[mz ez] lz].
  apply binary_round_aux_opp.
Qed.

Lemma float_mul_opp (x y : float) : (- x * y)%float = (- (x * y))%float.
Proof.
  apply Prim2SF_inj. now rewrite opp_spec, !mul_spec, opp_spec, SF64mul_opp.
Qed.

Lemma float_div_opp (x y : float) : (- x / y)%float = (- (x / y))%float.
Proof.
  apply Prim2SF_inj. now rewrite opp_spec, !div_spec, opp_spec, SF64div_opp.
Qed.

Lemma float_nan_mul (y : float) : (nan * y)%float = nan.
Proof. apply Prim2SF_inj. rewrite mul_spec. reflexivity. Qed.

Lemma float_nan_div (y : float) : (nan / y)%float = nan.
Proof. apply Prim2SF_inj. rewrite div_spec. reflexivity. Qed.

Lemma float_nan_add (y : float) : (nan + y)%float = nan.
Proof. apply Prim2SF_inj. rewrite add_spec. reflexivity. Qed.

Lemma float_nan_sub (y : float) : (nan - y)%float = nan.
Proof. apply Prim2SF_inj. rewrite sub_spec. reflexivity. Qed.

(** An infinity times or over a positive finite number is that infinity. *)
Lemma float_inf_scale (s : bool) (y : float) (m : positive) (e : Z) :
  Prim2SF y = S754_finite false m e ->
  let i := if s then neg_infinity else infinity in
  (i * y)%float = i /\ (i / y)%float = i.
Proof.
  intros Hy i. split; apply Prim2SF_inj;
    rewrite ?mul_spec, ?div_spec, Hy; destruct s; reflexivity.
Qed.

Lemma float_factors_finite_positive :
  linear_entries_ok finite_positive CONVERSIONS = true.
Proof. vm_compute; reflexivity. Qed.

Lemma float_linear_finite (c u : string) (f : float) :
  linear c -> factor c u = Some f ->
  exists m e, Prim2SF f = S754_finite false m e.
Proof.
  intros Hl Hf. destruct (factor_Some _ _ Hf) as (d & x & Hd & Hx & Hn).
  pose proof (linear_entries_ok_spec _ _ _ _ float_factors_finite_positive
                (linear_eqb Hl) Hd Hx) as Hp.
  unfold finite_positive in Hp. rewrite Hn in Hp.
  destruct (Prim2SF f) as [| | |[|] m e]; try discriminate. eauto.
Qed.

(** X7.  In a linear category the binary64 result is odd in the value: the
    opposite input gives the opposite result, bit for bit, for every
    binary64 value. *)
Theorem convert_opposite (c a b : string) (v : float) :
  linear c -> unit_of c a -> unit_of c b ->
  exists r : float,
    eval (convert c a b v) CONVERSIONS = inr r
    /\ eval (convert c a b (- v)%float) CONVERSIONS = inr (- r)%float.
Proof.
  intros Hl Ha Hb.
  destruct (convert_linear float_factors_nonzero v Hl Ha Hb)
    as (fa & fb & Fa & Fb & _ & _ & Hr).
  destruct (convert_linear float_factors_nonzero (- v)%float Hl Ha Hb)
    as (fa' & fb' & Fa' & Fb' & _ & _ & Hr').
  assert (fa' = fa) as -> by congruence.
  assert (fb' = fb) as -> by congruence.
  eexists. split; [exact Hr|]. rewrite Hr'.
  cbn [quot mul float_Number]. now rewrite float_mul_opp, float_div_opp.
Qed.

Lemma convert_opposite_witness :
  (linear "Area" /\ unit_of "Area" "Acres" /\ unit_of "Area" "Hectares")
  /\ exists r : float,
      eval (convert "Area" "Acres" "Hectares" 2.5%float) CONVERSIONS = inr r
      /\ eval (convert "Area" "Acres" "Hectares" (- 2.5)%float) CONVERSIONS
         = inr (- r)%float.
Proof.
  assert (Hl : linear "Area").
  { split; [vm_compute; tauto|discriminate]. }
  assert (Ha : unit_of "Area" "Acres").
  { eexists. split; [reflexivity|]. vm_compute. tauto. }
  assert (Hb : unit_of "Area" "Hectares").
  { eexists. split; [reflexivity|]. vm_compute. tauto. }
  split; [auto|]. exact (convert_opposite 2.5%float Hl Ha Hb).
Defined.

(** X8.  Not-a-number is handed through: for Temperature with any two unit
    names, and for a linear category with two of its units, the result of
    converting not-a-number is not-a-number, and nothing is raised. *)
Theorem nan_propagates (c a b : string) :
  c = "Temperature"%string \/ (unit_of c a /\ unit_of c b) ->
  eval (convert c a b nan) CONVERSIONS = inr nan.
Proof.
  intros Hc.
  destruct (String.eqb_spec c "Temperature") as [->|Hne].
  - unfold eval, convert. simpl String.eqb. cbv iota. unfold lift, fst.
    unfold convert_temperature, truediv. rewrite float_nine, float_five.
    destruct (String.eqb a "Fahrenheit"), (String.eqb a "Kelvin"),
      (String.eqb b "Fahrenheit"), (String.eqb b "Kelvin");
      cbn [rbind add sub mul quot of_float float_Number];
      now rewrite ?float_nan_sub, ?float_nan_mul, ?float_nan_div,
        ?float_nan_mul, ?float_nan_div, ?float_nan_add.
  - destruct Hc as [Hc|[Ha Hb]]; [contradiction|].
    assert (Hl : linear c) by (split; [exact (unit_of_category Ha)|exact Hne]).
    destruct (convert_linear float_factors_nonzero nan Hl Ha Hb)
      as (fa & fb & _ & _ & _ & _ & ->).
    cbn [quot mul float_Number]. now rewrite float_nan_mul, float_nan_div.
Qed.

Lemma nan_propagates_witness :
  eval (convert "Temperature" "Rankine" "Fahrenheit" nan) CONVERSIONS
  = inr nan
  /\ eval (convert "Pressure" "PSI" "Bar" nan) CONVERSIONS = inr nan.
Proof.
  split.
  - apply (@nan_propagates "Temperature" "Rankine" "Fahrenheit"). left. reflexivity.
  - apply (@nan_propagates "Pressure" "PSI" "Bar"). right.
    split; (eexists; split; [reflexivity|]; vm_compute; tauto).
Defined.

(** X9.  An infinite input comes back as the same infinity, in every
    category and for every pair of its units: the factors are positive and
    finite, and the temperature offsets are finite. *)
Theorem infinity_propagates (c a b : string) :
  unit_of c a -> unit_of c b ->
  eval (convert c a b infinity) CONVERSIONS = inr infinity
  /\ eval (convert c a b neg_infinity) CONVERSIONS = inr neg_infinity.
Proof.
  intros Ha Hb.
  destruct (String.eqb_spec c "Temperature") as [->|Hne].
  - destruct (temperature_units Ha) as [ta ->].
    destruct (temperature_units Hb) as [tb ->].
    destruct ta, tb; split; reflexivity.
  - assert (Hl : linear c) by (split; [exact (unit_of_category Ha)|exact Hne]).
    destruct (convert_linear float_factors_nonzero infinity Hl Ha Hb)
      as (fa & fb & Fa & Fb & _ & _ & Hp).
    destruct (convert_linear float_factors_nonzero neg_infinity Hl Ha Hb)
      as (fa' & fb' & Fa' & Fb' & _ & _ & Hn).
    assert (fa' = fa) as -> by congruence.
    assert (fb' = fb) as -> by congruence.
    destruct (float_linear_finite _ Hl Fa) as (ma & ea & Hfa).
    destruct (float_linear_finite _ Hl Fb) as (mb & eb & Hfb).
    rewrite Hp, Hn. cbn [quot mul float_Number].
    rewrite (proj1 (float_inf_scale false _ Hfa)).
    rewrite (proj2 (float_inf_scale false _ Hfb)).
    rewrite (proj1 (float_inf_scale true _ Hfa)).
    rewrite (proj2 (float_inf_scale true _ Hfb)).
    split; reflexivity.
Qed.

Lemma infinity_propagates_witness :
  (unit_of "Energy" "Electron-volts" /\ unit_of "Energy" "Kilowatt-hours")
  /\ eval (convert "Energy" "Electron-volts" "Kilowatt-hours" infinity)
          CONVERSIONS = inr infinity
  /\ eval (convert "Energy" "Electron-volts" "Kilowatt-hours" neg_infinity)
          CONVERSIONS = inr neg_infinity.
Proof.
  assert (Ha : unit_of "Energy" "Electron-volts").
  { eexists. split; [reflexivity|]. vm_compute. tauto. }
  assert (Hb : unit_of "Energy" "Kilowatt-hours").
  { eexists. split; [reflexivity|]. vm_compute. tauto. }
  split; [auto|]. exact (infinity_propagates Ha Hb).
Defined.

(** ** Binary64: the base unit *)

Lemma factor_unit_of {T : Type} `{Number T} (c u : string) (f : T) :
  factor c u = Some f -> unit_of c u.
Proof.
  intros Hf. destruct (factor_Some _ _ Hf) as (d & x & Hd & Hx & _).
  exists d. split; [assumption|]. exact (getitem_key _ _ Hx).
Qed.

(** X10.  Converting to or from the base unit of a linear category rounds
    once: to the base unit the result is the binary64 product [v * fa],
    from the base unit it is the binary64 quotient [v / fb]. *)
Theorem base_unit_single_rounding (c a b : string) (v fa fb : float) :
  linear c -> factor c a = Some fa -> factor c b = Some fb ->
  (fb = 1%float -> eval (convert c a b v) CONVERSIONS = inr (v * fa)%float)
  /\ (fa = 1%float -> eval (convert c a b v) CONVERSIONS = inr (v / fb)%float).
Proof.
  intros Hl Fa Fb.
  destruct (convert_linear float_factors_nonzero v Hl
              (factor_unit_of _ _ Fa) (factor_unit_of _ _ Fb))
    as (fa' & fb' & Fa' & Fb' & _ & _ & Hr).
  assert (fa' = fa) as -> by congruence.
  assert (fb' = fb) as -> by congruence.
  rewrite Hr. cbn [quot mul float_Number].
  split; intros ->; [now rewrite float_div_one|now rewrite float_mul_one].
Qed.

Lemma base_unit_single_rounding_witness :
  (linear "Length" /\ factor "Length" "Miles" = Some 1609.34%float
   /\ factor "Length" "Meters" = Some 1%float)
  /\ eval (convert "Length" "Miles" "Meters" 26.2%float) CONVERSIONS
     = inr (26.2 * 1609.34)%float.
Proof.
  assert (Hl : linear "Length").
  { split; [vm_compute; tauto|discriminate]. }
  assert (Fa : factor "Length" "Miles" = Some 1609.34%float) by reflexivity.
  assert (Fb : factor "Length" "Meters" = Some 1%float) by reflexivity.
  split; [auto|].
  apply (proj1 (@base_unit_single_rounding "Length" "Miles" "Meters"
                  26.2%float _ _ Hl Fa Fb)).
  reflexivity.
Defined.

Lemma first_unit_one_table : first_unit_one CONVERSIONS = true.
Proof. vm_compute; reflexivity. Qed.

(** X11.  In every category the first unit listed converts to itself with
    no change at all: for every binary64 value the result is that value.
    With both unit boxes on their first option the page shows the input. *)
Theorem first_unit_identity
        (c u0 : string) (rest : list string) (v : float) :
  eval (units c) CONVERSIONS = inr (u0 :: rest) ->
  eval (convert c u0 u0 v) CONVERSIONS = inr v.
Proof.
  unfold eval at 1, units, bind, global_getitem, ret.
  destruct (getitem CONVERSIONS c) as [e|d] eqn:Hd; [discriminate|].
  simpl. intros [= Hk].
  destruct (String.eqb_spec c "Temperature") as [->|Hne].
  - vm_compute in Hd. injection Hd as <-. simpl in Hk.
    injection Hk as <- _. reflexivity.
  - pose proof first_unit_one_table as Hall. unfold first_unit_one in Hall.
    rewrite forallb_forall in Hall.
    specialize (Hall _ (getitem_In _ _ Hd)). simpl in Hall.
    apply String.eqb_neq in Hne. rewrite Hne in Hall. simpl in Hall.
    destruct d as [|[u x] d']; [discriminate|].
    simpl in Hk. injection Hk as -> _.
    destruct (to_number x) as [e|f] eqn:Hf; [discriminate|].
    apply FloatAxioms.Leibniz.eqb_spec in Hall. subst f.
    assert (Hx : getitem ((u0, x) :: d') u0 = inr x).
    { simpl. now rewrite String.eqb_refl. }
    rewrite (@convert_linear_eval float _ CONVERSIONS c u0 u0 v _ x x
               1%float 1%float Hne Hd Hx Hf Hx Hf); [|reflexivity].
    cbn [quot mul float_Number].
    now rewrite float_mul_one, float_div_one.
Qed.

Lemma first_unit_identity_witness :
  eval (units "Volume") CONVERSIONS
  = inr [ "Cubic Meters"; "Liters"; "Milliliters"; "Cubic Feet";
          "Cubic Inches"; "Gallons (US)"; "Quarts (US)"; "Pints (US)";
          "Fluid Ounces (US)" ]%string
  /\ eval (convert "Volume" "Cubic Meters" "Cubic Meters" 0.1%float)
          CONVERSIONS = inr 0.1%float.
Proof.
  assert (Hu : eval (units "Volume") CONVERSIONS
               = inr [ "Cubic Meters"; "Liters"; "Milliliters"; "Cubic Feet";
                       "Cubic Inches"; "Gallons (US)"; "Quarts (US)";
                       "Pints (US)"; "Fluid Ounces (US)" ]%string)
    by reflexivity.
  split; [exact Hu|]. exact (@first_unit_identity "Volume" "Cubic Meters" _ 0.1%float Hu).
Defined.

(** ** Unit names outside the table, in Temperature *)

(** X12.  [convert_temperature] compares the unit names with "Fahrenheit"
    and "Kelvin" only, letter for letter: any other source name is read as
    Celsius and any other target name yields the Celsius value. *)
Theorem temperature_other_names (a b : string) (v : float) :
  (a <> "Fahrenheit"%string -> a <> "Kelvin"%string ->
   eval (convert "Temperature" a b v) CONVERSIONS
   = eval (convert "Temperature" "Celsius" b v) CONVERSIONS)
  /\ (b <> "Fahrenheit"%string -> b <> "Kelvin"%string ->
      eval (convert "Temperature" a b v) CONVERSIONS
      = eval (convert "Temperature" a "Celsius" v) CONVERSIONS).
Proof.
  unfold eval, convert. simpl String.eqb. cbv iota. unfold lift, fst.
  unfold convert_temperature.
  split; intros HF HK; apply String.eqb_neq in HF, HK; now rewrite HF, HK.
Qed.

Lemma temperature_other_names_witness :
  eval (convert "Temperature" "fahrenheit" "Celsius" 212%float) CONVERSIONS
  = eval (convert "Temperature" "Celsius" "Celsius" 212%float) CONVERSIONS.
Proof.
  apply (proj1 (temperature_other_names "fahrenheit" "Celsius" 212%float));
    discriminate.
Defined.

(** ** The table as written *)

Lemma nodup_getitem {V : Type} (d : dict V) (k : string) (v : V) :
  nodup_keys (keys d) = true -> In (k, v) d -> getitem d k = inr v.
Proof.
  induction d as [|[k' v'] d IH]; simpl; [tauto|].
  intros Hnd Hin. apply andb_prop in Hnd. destruct Hnd as [Hk' Hnd].
  destruct Hin as [[= -> ->]|Hin].
  - now rewrite String.eqb_refl.
  - destruct (String.eqb_spec k k') as [->|Hne]; [|now apply IH].
    exfalso. apply negb_true_iff in Hk'.
    assert (Hex : existsb (String.eqb k') (keys d) = true).
    { apply existsb_exists. exists k'. split; [|apply String.eqb_refl].
      unfold keys. now apply (in_map fst) in Hin. }
    congruence.
Qed.

(** X13.  No category and no unit of a category is written twice in the
    table, so every entry of the literal is the one a lookup finds. *)
Theorem table_entries_reachable
        (c u : string) (d : dict pyval) (x : pyval) :
  In (c, d) CONVERSIONS -> In (u, x) d ->
  getitem CONVERSIONS c = inr d /\ getitem d u = inr x /\ unit_of c u.
Proof.
  intros Hc Hu. destruct keys_nodup as [Hcat Hunits].
  assert (Hd : getitem CONVERSIONS c = inr d) by now apply nodup_getitem.
  rewrite forallb_forall in Hunits. specialize (Hunits _ Hc). simpl in Hunits.
  assert (Hx : getitem d u = inr x) by now apply nodup_getitem.
  repeat split; try assumption.
  exists d. split; [assumption|]. exact (getitem_key _ _ Hx).
Qed.

Lemma table_entries_reachable_witness :
  exists d,
    In ("Speed"%string, d) CONVERSIONS
    /\ In ("Feet per Second"%string, PyFloat 0.3048) d
    /\ getitem CONVERSIONS "Speed" = inr d
    /\ getitem d "Feet per Second" = inr (PyFloat 0.3048)
    /\ unit_of "Speed" "Feet per Second".
Proof.
  eexists.
  assert (Hc : In ("Speed"%string,
                   [ ("Meters per Second", PyInt 1);
                     ("Kilometers per Hour", PyFloat 0.277778);
                     ("Miles per Hour", PyFloat 0.44704);
                     ("Knots", PyFloat 0.514444);
                     ("Feet per Second", PyFloat 0.3048) ]%string)
                  CONVERSIONS).
  { do 5 right. left. reflexivity. }
  split; [exact Hc|].
  assert (Hu : In ("Feet per Second"%string, PyFloat 0.3048)
                  [ ("Meters per Second", PyInt 1);
                    ("Kilometers per Hour", PyFloat 0.277778);
                    ("Miles per Hour", PyFloat 0.44704);
                    ("Knots", PyFloat 0.514444);
                    ("Feet per Second", PyFloat 0.3048) ]%string).
  { do 4 right. left. reflexivity. }
  split; [exact Hu|]. exact (@table_entries_reachable _ _ _ _ Hc Hu).
Defined.

(** ** What the page shows *)

Lemma round_half_even_near (q : Q) :
  (Qabs (inject_Z (round_half_even q) - q) <= 1 # 2)%Q.
Proof.
  destruct q as [n d]. unfold round_half_even. cbn [Qnum Qden].
  pose proof (Z.div_mod n (Zpos d) ltac:(lia)) as Hdm.
  pose proof (Z.mod_pos_bound n (Zpos d) ltac:(lia)) as Hr.
  set (f := (n / Zpos d)%Z) in *. set (r := (n mod Zpos d)%Z) in *.
  apply Qabs_Qle_condition.
  destruct (Z.compare_spec (2 * r) (Zpos d)) as [He|Hlt|Hgt];
    [destruct (Z.even f)| |];
    unfold Qle, Qminus, Qplus, Qopp, inject_Z; cbn [Qnum Qden];
    split; nia.
Qed.

Lemma round_half_even_nonneg (q : Q) : (0 <= q)%Q -> (0 <= round_half_even q)%Z.
Proof.
  destruct q as [n d]. unfold Qle, round_half_even. cbn [Qnum Qden].
  intros Hn. assert (0 <= n)%Z by lia.
  pose proof (Z.div_pos n (Zpos d) ltac:(lia) ltac:(lia)).
  destruct (2 * (n mod Zpos d) ?= Zpos d)%Z; [destruct (Z.even _)| |]; lia.
Qed.

Lemma round_half_even_small (q : Q) :
  (0 <= q)%Q -> (q <= 1 # 2)%Q -> round_half_even q = 0%Z.
Proof.
  destruct q as [n d]. unfold Qle, round_half_even. cbn [Qnum Qden].
  intros Hn Hh.
  assert (Hlt : (0 <= n < Zpos d)%Z) by lia.
  rewrite (Z.div_small _ _ Hlt), (Z.mod_small _ _ Hlt).
  destruct (Z.compare_spec (2 * n) (Zpos d)); try reflexivity; lia.
Qed.

Lemma SF2Q_nonneg (m : positive) (e : Z) :
  (0 <= SF2Q (S754_finite false m e))%Q.
Proof.
  unfold SF2Q. apply Qmult_le_0_compat; [unfold Qle; simpl; lia|].
  apply Qpower_0_le. discriminate.
Qed.

Lemma finite_value_nonneg (x : float) (s : bool) (q : Q) :
  finite_value x = Some (s, q) -> (0 <= q)%Q.
Proof.
  unfold finite_value. destruct (Prim2SF x) as [s'|s'| |s' m e];
    try discriminate; intros [= <- <-].
  - apply Qle_refl.
  - apply SF2Q_nonneg.
Qed.

(** X14.  The number shown for a finite value is within half a unit of the
    fourth decimal of that value: the text is that of [n / 10^4] for a
    natural number [n] with [|n / 10^4 - |x|| <= 0.00005], under the sign
    bit of [x]. *)
Theorem display_accuracy (x : float) (s : bool) (q : Q) :
  finite_value x = Some (s, q) ->
  exists n : Z,
    (0 <= n)%Z
    /\ format_4f x = fixed4 s n
    /\ (Qabs (inject_Z n / inject_Z 10000 - q) <= 1 # 20000)%Q.
Proof.
  intros Hx. pose proof Hx as Hq. apply finite_value_nonneg in Hq.
  exists (round_half_even (q * inject_Z 10000)). split; [|split].
  - apply round_half_even_nonneg.
    apply Qmult_le_0_compat; [assumption|discriminate].
  - unfold format_4f. now rewrite Hx.
  - pose proof (round_half_even_near (q * inject_Z 10000)) as Hn.
    set (n := round_half_even (q * inject_Z 10000)) in *.
    apply Qabs_Qle_condition in Hn. apply Qabs_Qle_condition.
    unfold inject_Z in *. unfold Qdiv. change (/ (10000 # 1)) with (1 # 10000).
    lra.
Qed.

Lemma display_accuracy_witness :
  exists q n,
    finite_value 1609.34%float = Some (false, q)
    /\ (0 <= n)%Z
    /\ format_4f 1609.34%float = fixed4 false n
    /\ (Qabs (inject_Z n / inject_Z 10000 - q) <= 1 # 20000)%Q.
Proof.
  assert (Hx : finite_value 1609.34%float
               = Some (false, SF2Q (S754_finite false 7077952172180111 (-42))))
    by reflexivity.
  destruct (@display_accuracy _ _ _ Hx) as (n & Hn & Hf & Ha).
  exists (SF2Q (S754_finite false 7077952172180111 (-42))), n.
  repeat split; assumption.
Defined.

(** X15.  A finite value of magnitude at most 0.00005 is shown as zero,
    with the minus sign when its sign bit is set: a result that small
    reads "0.0000" or "-0.0000" on the page. *)
Theorem display_vanishes (x : float) (s : bool) (q : Q) :
  finite_value x = Some (s, q) -> (q <= 1 # 20000)%Q ->
  format_4f x = (if s then "-0.0000" else "0.0000")%string.
Proof.
  intros Hx Hq. pose proof Hx as Hq0. apply finite_value_nonneg in Hq0.
  unfold format_4f. rewrite Hx.
  rewrite round_half_even_small.
  - destruct s; reflexivity.
  - apply Qmult_le_0_compat; [assumption|discriminate].
  - unfold inject_Z. lra.
Qed.

Lemma display_vanishes_witness :
  format_4f 1.602177e-19%float = "0.0000"%string.
Proof.
  assert (Hx : finite_value 1.602177e-19%float
               = Some (false, SF2Q (S754_finite false 6655182883133404 (-115))))
    by reflexivity.
  apply (@display_vanishes _ _ _ Hx). vm_compute. discriminate.
Defined.

(** ** Temperature is affine *)

Lemma Q_temperature_affine (f t : temp_unit) (v w : Q) :
  (spec_from_celsius t (spec_to_celsius f v)
   - spec_from_celsius t (spec_to_celsius f w)
   == spec_from_celsius t (spec_to_celsius f (v - w))
      - spec_from_celsius t (spec_to_celsius f 0))%Q.
Proof.
  destruct f, t; unfold spec_to_celsius, spec_from_celsius;
    cbn [add sub mul quot of_int of_float Q_Number];
    try generalize (float2Q 273.15); intros; unfold inject_Z; field.
Qed.

(** X16.  In exact rational arithmetic a temperature conversion is affine:
    the difference of two results is the result of the difference less the
    result of zero, so a temperature interval converts the same way at
    every level, while zero itself need not go to zero. *)
Theorem temperature_affine (a b : string) (v w : Q) :
  unit_of "Temperature" a -> unit_of "Temperature" b ->
  exists rv rw rd r0 : Q,
    eval (convert "Temperature" a b v) CONVERSIONS = inr rv
    /\ eval (convert "Temperature" a b w) CONVERSIONS = inr rw
    /\ eval (convert "Temperature" a b (v - w)%Q) CONVERSIONS = inr rd
    /\ eval (convert "Temperature" a b 0%Q) CONVERSIONS = inr r0
    /\ (rv - rw == rd - r0)%Q.
Proof.
  intros Ha Hb.
  destruct (temperature_units Ha) as [ta ->].
  destruct (temperature_units Hb) as [tb ->].
  do 4 eexists. rewrite !Q_temperature_eval.
  repeat (split; [reflexivity|]).
  apply Q_temperature_affine.
Qed.

Lemma temperature_affine_witness :
  (unit_of "Temperature" "Celsius" /\ unit_of "Temperature" "Fahrenheit")
  /\ exists rv rw rd r0 : Q,
      eval (convert "Temperature" "Celsius" "Fahrenheit" (37 # 1)%Q)
           CONVERSIONS = inr rv
      /\ eval (convert "Temperature" "Celsius" "Fahrenheit" (20 # 1)%Q)
              CONVERSIONS = inr rw
      /\ eval (convert "Temperature" "Celsius" "Fahrenheit"
                       ((37 # 1) - (20 # 1))%Q) CONVERSIONS = inr rd
      /\ eval (convert "Temperature" "Celsius" "Fahrenheit" 0%Q) CONVERSIONS
         = inr r0
      /\ (rv - rw == rd - r0)%Q.
Proof.
  assert (Ha : unit_of "Temperature" "Celsius").
  { eexists. split; [reflexivity|]. vm_compute. tauto. }
  assert (Hb : unit_of "Temperature" "Fahrenheit").
  { eexists. split; [reflexivity|]. vm_compute. tauto. }
  split; [auto|].
  exact (@temperature_affine "Celsius" "Fahrenheit" (37 # 1)%Q (20 # 1)%Q
           Ha Hb).
Defined.
